(** * AutoMeta: the document-to-metadata pipeline

    A shallow embedding of [auto_meta_metadata_generation.py] (the notebook
    script followed by the enhanced Streamlit front end) and of
    [streamlit_app.py], with the properties of the pipeline proved over it.

    Python [str] values are sequences of Unicode code points; the third-party
    services (PDF and DOCX parsing, OCR, the summarization and keyword models,
    the file system, standard output) are the fields of one interface, and
    every call to one of them is recorded in a transcript. *)

From Stdlib Require Import ZArith NArith Ascii String.
From stdpp Require Import base tactics option list gmap.

Local Open Scope Z_scope.

(** ** Python strings *)

Abbreviation str := (list N).

(** An ASCII literal as a [str]. *)
Definition lit (s : string) : str := N_of_ascii <$> list_ascii_of_string s.

(** [str.isspace] on one code point: the characters CPython classifies as
    whitespace, which are the ones [str.strip()] and [str.split()] act on. *)
Definition is_space (c : N) : bool :=
  ((9 <=? c) && (c <=? 13) || (28 <=? c) && (c <=? 32)
   || (c =? 133) || (c =? 160) || (c =? 5760)
   || (8192 <=? c) && (c <=? 8202)
   || (c =? 8232) || (c =? 8233) || (c =? 8239) || (c =? 8287)
   || (c =? 12288))%N.

(** [s.lstrip()]. *)
Fixpoint lstrip (s : str) : str :=
  match s with
  | [] => []
  | c :: s' => if is_space c then lstrip s' else s
  end.

(** [s.rstrip()]. *)
Definition rstrip (s : str) : str := reverse (lstrip (reverse s)).

(** [s.strip()]. *)
Definition strip (s : str) : str := rstrip (lstrip s).

(** [sep.join(parts)]. *)
Fixpoint join (sep : str) (parts : list str) : str :=
  match parts with
  | [] => []
  | [p] => p
  | p :: ps => p ++ sep ++ join sep ps
  end.

(** [s.split()] with no argument: runs of whitespace separate the tokens and
    no empty token is produced.  [cur] holds the token being read, reversed. *)
Fixpoint split_ws_from (cur : str) (s : str) : list str :=
  match s with
  | [] => match cur with [] => [] | _ => [reverse cur] end
  | c :: s' =>
      if is_space c
      then match cur with
           | [] => split_ws_from [] s'
           | _ => reverse cur :: split_ws_from [] s'
           end
      else split_ws_from (c :: cur) s'
  end.

Definition split_ws (s : str) : list str := split_ws_from [] s.

(** [s.split(sep)] for a one-character separator: every occurrence of [sep]
    cuts, and empty pieces are kept. *)
Fixpoint split_on (sep : N) (s : str) : list str :=
  match s with
  | [] => [[]]
  | c :: s' =>
      if (c =? sep)%N then [] :: split_on sep s'
      else match split_on sep s' with
           | [] => [[c]]
           | p :: ps => (c :: p) :: ps
           end
  end.

(** [s[i:j]] for non-negative [i] and [j]; a bound past the end is cut at
    the end, and [j <= i] gives the empty string. *)
Definition slice (s : str) (i j : Z) : str :=
  take (Z.to_nat (j - i)) (drop (Z.to_nat i) s).

(** [len(s)]. *)
Definition len {A} (l : list A) : Z := Z.of_nat (length l).

(** Truth value of a string: [if text] holds for the non-empty ones. *)
Definition truthy (s : str) : bool :=
  match s with [] => false | _ => true end.

Definition period : N := 46.

(** Universal newlines, as a file opened in text mode with [newline=None]
    delivers its decoded content: each ["\r\n"] and each remaining ["\r"]
    becomes ["\n"]. *)
Fixpoint universal_newlines (s : str) : str :=
  match s with
  | [] => []
  | c :: s' =>
      if (c =? 13)%N
      then 10%N :: match s' with
                   | [] => []
                   | d :: s'' =>
                       if (d =? 10)%N then universal_newlines s''
                       else universal_newlines s'
                   end
      else c :: universal_newlines s'
  end.

(** ** Exceptions and results *)

Inductive exn : Type :=
  | IndexError
  | KeyError (key : str)
  | ValueError
  | LibraryError (name : str).

Inductive result (A : Type) : Type :=
  | Ok (a : A)
  | Raise (e : exn).
Arguments Ok {A} a.
Arguments Raise {A} e.

(** ** The metadata record

    The dictionary built by [generate_metadata], with its keys in insertion
    order. *)
Record MetadataRecord : Type := mkMetadata {
  title : str;
  summary : str;
  keywords : list str;
  document_type : str;
  word_count : Z
}.

(** ** The external services *)

Class Services : Type := {
  World : Type;
  PdfDocument : Type;
  Page : Type;
  DocxDocument : Type;
  Paragraph : Type;
  Image : Type;
  Score : Type;
  (** [pathlib.Path(p).suffix] and [str.lower] *)
  Path_suffix : str -> str;
  str_lower : str -> str;
  (** [os.path.exists]: it answers [False] where the test itself fails and
      raises nothing for a [str] path *)
  os_path_exists : str -> World -> bool;
  (** [fitz.open], iteration over the document, [page.get_text()] *)
  fitz_open : str -> World -> result PdfDocument * World;
  pdf_pages : PdfDocument -> list Page;
  Page_get_text : Page -> World -> result str * World;
  (** [docx.Document], [doc.paragraphs], [para.text] *)
  docx_Document : str -> World -> result DocxDocument * World;
  paragraphs : DocxDocument -> list Paragraph;
  Paragraph_text : Paragraph -> str;
  (** [pdf2image.convert_from_path], [pytesseract.image_to_string] *)
  convert_from_path : str -> World -> result (list Image) * World;
  image_to_string : Image -> World -> result str * World;
  (** [Path(p).read_bytes().decode(encoding)]: the content of the file,
      decoded *)
  Path_read_decoded : str -> str -> World -> result str * World;
  (** [print(line)] on the standard output of the process *)
  builtin_print : str -> World -> result () * World;
  (** the summarization pipeline, called as
      [summarizer(text, max_length=.., min_length=.., do_sample=..)] *)
  summarizer_call :
    str -> Z -> Z -> bool -> World -> result (list (gmap str str)) * World;
  (** [kw_model.extract_keywords(text, keyphrase_ngram_range=..,
      stop_words=.., top_n=..)] *)
  kw_extract_keywords :
    str -> Z * Z -> str -> Z -> World -> result (list (str * Score)) * World;
  (** [json.dumps(record, indent=..)] and [yaml.dump(record, sort_keys=..)],
      on a record of strings, a list of strings and an integer *)
  json_dumps : MetadataRecord -> Z -> str;
  yaml_dump : MetadataRecord -> bool -> str
}.

(** [Path(p).read_text(encoding=...)]: the file is opened in text mode, so
    its decoded content goes through the universal newlines translation. *)
Definition Path_read_text `{S : Services} (path encoding : str) (w : World)
  : result str * World :=
  (match (Path_read_decoded path encoding w).1 with
   | Ok content => Ok (universal_newlines content)
   | Raise e => Raise e
   end,
   (Path_read_decoded path encoding w).2).

Section Pipeline.
Context `{S : Services}.

(** ** Transcript of the calls to the services *)

Inductive event : Type :=
  | EvExists (path : str)
  | EvFitzOpen (path : str)
  | EvGetText (page : Page)
  | EvDocxDocument (path : str)
  | EvConvertFromPath (path : str)
  | EvImageToString (image : Image)
  | EvReadText (path : str) (encoding : str)
  | EvSummarize (input : str) (max_length min_length : Z) (do_sample : bool)
      (reply : result (list (gmap str str)))
  | EvKeywords (input : str) (ngram_range : Z * Z) (stop_words : str)
      (top_n : Z) (reply : result (list (str * Score)))
  | EvPrint (line : str).

(** ** Computations: world passing, exceptions, transcript *)

Record outcome (A : Type) : Type := mkOutcome {
  res : result A;
  world : World;
  log : list event
}.
Arguments mkOutcome {A} res world log.
Arguments res {A} o.
Arguments world {A} o.
Arguments log {A} o.

Definition M (A : Type) : Type := World -> outcome A.

Definition ret {A} (a : A) : M A := fun w => mkOutcome (Ok a) w [].

Definition raise {A} (e : exn) : M A := fun w => mkOutcome (Raise e) w [].

Definition bind {A B} (m : M A) (k : A -> M B) : M B :=
  fun w =>
    let o := m w in
    match res o with
    | Ok a => let o' := k a (world o) in
              mkOutcome (res o') (world o') (log o ++ log o')
    | Raise e => mkOutcome (Raise e) (world o) (log o)
    end.

(** A call to a service that may raise and may change the world; the
    transcript entry may record the reply. *)
Definition call {A} (ev : result A -> event) (f : World -> result A * World)
  : M A :=
  fun w => let '(r, w') := f w in mkOutcome r w' [ev r].

(** A query of the world that neither raises nor changes it. *)
Definition query {A} (ev : event) (f : World -> A) : M A :=
  fun w => mkOutcome (Ok (f w)) w [ev].

#[export] Instance M_ret : MRet M := @ret.
#[export] Instance M_bind : MBind M := fun A B k m => bind m k.

(** [l[0]] *)
Definition index0 {A} (l : list A) : M A :=
  match l with
  | [] => raise IndexError
  | x :: _ => ret x
  end.

(** [d[key]] *)
Definition getitem (d : gmap str str) (key : str) : M str :=
  match d !! key with
  | Some v => ret v
  | None => raise (KeyError key)
  end.

(** [print(line)] *)
Definition print (line : str) : M () :=
  call (fun _ => EvPrint line) (builtin_print line).

End Pipeline.

Arguments mkOutcome {S A} res world log.
Arguments res {S A} o.
Arguments world {S A} o.
Arguments log {S A} o.

(** [range(start, stop, step)] for a non-zero step. *)
Definition range (start stop step : Z) : list Z :=
  if 0 <? step
  then (fun k => start + Z.of_nat k * step)
         <$> seq 0 (Z.to_nat ((stop - start + step - 1) / step))
  else (fun k => start + Z.of_nat k * step)
         <$> seq 0 (Z.to_nat ((start - stop - step - 1) / (- step))).

(** [l[:k]]: the first [k] elements, or all but the last [-k] when [k] is
    negative. *)
Definition upto {A} (l : list A) (k : Z) : list A :=
  if 0 <=? k then take (Z.to_nat k) l
  else take (length l - Z.to_nat (- k))%nat l.

Definition newline : str := [10%N].
Definition space : str := [32%N].

(** The labels the scripts use for the document type. *)
Definition PDF : str := lit "PDF".
Definition Scanned_PDF : str := lit "Scanned PDF".
Definition DOCX : str := lit "DOCX".
Definition TXT : str := lit "TXT".
Definition Unknown : str := lit "Unknown".

(** ** auto_meta_metadata_generation.py, first part: the notebook script *)

Module Notebook.
Section Code.
Context `{S : Services}.

Definition extract_text_from_pdf (path : str) : M str :=
  doc ← call (fun _ => EvFitzOpen path) (fitz_open path);
  texts ← mapM (fun page => call (fun _ => EvGetText page) (Page_get_text page))
             (pdf_pages doc);
  mret (strip (join newline texts)).

Definition extract_text_from_docx (path : str) : M str :=
  doc ← call (fun _ => EvDocxDocument path) (docx_Document path);
  mret (strip (join newline (Paragraph_text <$> paragraphs doc))).

Definition extract_text_via_ocr (path : str) : M str :=
  images ← call (fun _ => EvConvertFromPath path) (convert_from_path path);
  texts ← mapM (fun img => call (fun _ => EvImageToString img)
                             (image_to_string img)) images;
  mret (strip (join newline texts)).

Definition generate_metadata (text : str) (doc_type : str)
  : M MetadataRecord :=
  let short_text := if len text >? 1024 then slice text 0 1024 else text in
  summary_result ← call (EvSummarize short_text 130 30 false)
                     (summarizer_call short_text 130 30 false);
  first ← index0 summary_result;
  summary ← getitem first (lit "summary_text");
  keywords ← call (EvKeywords text (1, 2) (lit "english") 8)
               (kw_extract_keywords text (1, 2) (lit "english") 8);
  title ← index0 (split_on period summary);
  mret {| title := title;
          summary := summary;
          keywords := fst <$> keywords;
          document_type := doc_type;
          word_count := len (split_ws text) |}.

Definition process_file (file_path : str) : M (str * str) :=
  let ext := str_lower (Path_suffix file_path) in
  if decide (ext = lit ".pdf") then
    text ← extract_text_from_pdf file_path;
    if negb (truthy text) then
      text ← extract_text_via_ocr file_path;
      mret (text, Scanned_PDF)
    else mret (text, PDF)
  else if decide (ext = lit ".docx") then
    text ← extract_text_from_docx file_path;
    mret (text, DOCX)
  else if decide (ext = lit ".txt") then
    text ← call (fun _ => EvReadText file_path (lit "utf-8"))
             (Path_read_text file_path (lit "utf-8"));
    mret (text, TXT)
  else mret ([], Unknown).

Definition json_banner : str :=
  [10; 128209]%N ++ lit " JSON Metadata Output:" ++ [10%N].
Definition yaml_banner : str :=
  [10; 128203]%N ++ lit " YAML Metadata Output:" ++ [10%N].
Definition no_text_message : str :=
  [10060%N] ++ lit " No text found in the document.".
Definition not_found_message : str :=
  [9888; 65039]%N
  ++ lit " File not found. Please update the 'file_path' variable.".

(** The top level of the script, run on [file_path] (which the script binds
    to ["sample.pdf"], to be replaced by the user's document). *)
Definition main (file_path : str) : M () :=
  found ← query (EvExists file_path) (os_path_exists file_path);
  if found : bool then
    '(raw_text, doc_type) ← process_file file_path;
    if truthy raw_text then
      metadata ← generate_metadata raw_text doc_type;
      print json_banner;;
      print (json_dumps metadata 4);;
      print yaml_banner;;
      print (yaml_dump metadata false)
    else print no_text_message
  else print not_found_message.

End Code.
End Notebook.

(** ** auto_meta_metadata_generation.py, second part: the enhanced front end *)

Module Enhanced.
Section Code.
Context `{S : Services}.

Definition extract_text_from_pdf (path : str) : M str :=
  doc ← call (fun _ => EvFitzOpen path) (fitz_open path);
  texts ← mapM (fun page => call (fun _ => EvGetText page) (Page_get_text page))
             (pdf_pages doc);
  mret (strip (join newline texts)).

Definition extract_text_from_docx (path : str) : M str :=
  doc ← call (fun _ => EvDocxDocument path) (docx_Document path);
  mret (strip (join newline (Paragraph_text <$> paragraphs doc))).

Definition extract_text_via_ocr (path : str) : M str :=
  images ← call (fun _ => EvConvertFromPath path) (convert_from_path path);
  texts ← mapM (fun img => call (fun _ => EvImageToString img)
                             (image_to_string img)) images;
  mret (strip (join newline texts)).

(** The list comprehension that cuts [text] into chunks; [range] refuses a
    zero step. *)
Definition chunks_of (text : str) (chunk_size : Z) : M (list str) :=
  if chunk_size =? 0 then raise ValueError
  else mret ((fun i => slice text i (i + chunk_size))
               <$> range 0 (len text) chunk_size).

(** The [for] loop over the chunks, appending to [summaries]. *)
Fixpoint summarize_chunks (chunks : list str) (summaries : list str)
  : M (list str) :=
  match chunks with
  | [] => mret summaries
  | chunk :: rest =>
      result ← call (EvSummarize chunk 130 30 false)
                 (summarizer_call chunk 130 30 false);
      first ← index0 result;
      s ← getitem first (lit "summary_text");
      summarize_chunks rest (summaries ++ [s])
  end.

Definition summarize_long_text (text : str) (chunk_size max_chunks : Z)
  : M str :=
  chunks ← chunks_of text chunk_size;
  summaries ← summarize_chunks (upto chunks max_chunks) [];
  mret (join space summaries).

Definition generate_metadata (text : str) (doc_type : str)
  : M MetadataRecord :=
  summary ← summarize_long_text text 1000 5;
  keywords ← call (EvKeywords text (1, 2) (lit "english") 8)
               (kw_extract_keywords text (1, 2) (lit "english") 8);
  title ← index0 (split_on period summary);
  mret {| title := title;
          summary := summary;
          keywords := fst <$> keywords;
          document_type := doc_type;
          word_count := len (split_ws text) |}.

(** The dispatch on the extension of the uploaded file's name; the content
    was written to [tmp_path]. *)
Definition extract_uploaded (name tmp_path : str) : M (str * str) :=
  let ext := str_lower (Path_suffix name) in
  if decide (ext = lit ".pdf") then
    text ← extract_text_from_pdf tmp_path;
    if negb (truthy text) then
      text ← extract_text_via_ocr tmp_path;
      mret (text, Scanned_PDF)
    else mret (text, PDF)
  else if decide (ext = lit ".docx") then
    text ← extract_text_from_docx tmp_path;
    mret (text, DOCX)
  else if decide (ext = lit ".txt") then
    text ← call (fun _ => EvReadText tmp_path (lit "utf-8"))
             (Path_read_text tmp_path (lit "utf-8"));
    mret (text, TXT)
  else mret ([], Unknown).

End Code.
End Enhanced.

(** ** streamlit_app.py *)

Module StreamlitApp.
Section Code.
Context `{S : Services}.

Definition extract_text_from_pdf (path : str) : M str :=
  doc ← call (fun _ => EvFitzOpen path) (fitz_open path);
  texts ← mapM (fun page => call (fun _ => EvGetText page) (Page_get_text page))
             (pdf_pages doc);
  mret (strip (join newline texts)).

Definition extract_text_from_docx (path : str) : M str :=
  doc ← call (fun _ => EvDocxDocument path) (docx_Document path);
  mret (strip (join newline (Paragraph_text <$> paragraphs doc))).

Definition extract_text_via_ocr (path : str) : M str :=
  images ← call (fun _ => EvConvertFromPath path) (convert_from_path path);
  texts ← mapM (fun img => call (fun _ => EvImageToString img)
                             (image_to_string img)) images;
  mret (strip (join newline texts)).

Definition generate_metadata (text : str) (doc_type : str)
  : M MetadataRecord :=
  let short_text := if len text >? 1024 then slice text 0 1024 else text in
  summary_result ← call (EvSummarize short_text 130 30 false)
                     (summarizer_call short_text 130 30 false);
  first ← index0 summary_result;
  summary ← getitem first (lit "summary_text");
  keywords ← call (EvKeywords text (1, 2) (lit "english") 8)
               (kw_extract_keywords text (1, 2) (lit "english") 8);
  title ← index0 (split_on period summary);
  mret {| title := title;
          summary := summary;
          keywords := fst <$> keywords;
          document_type := doc_type;
          word_count := len (split_ws text) |}.

Definition extract_uploaded (name tmp_path : str) : M (str * str) :=
  let ext := str_lower (Path_suffix name) in
  if decide (ext = lit ".pdf") then
    text ← extract_text_from_pdf tmp_path;
    if negb (truthy text) then
      text ← extract_text_via_ocr tmp_path;
      mret (text, Scanned_PDF)
    else mret (text, PDF)
  else if decide (ext = lit ".docx") then
    text ← extract_text_from_docx tmp_path;
    mret (text, DOCX)
  else if decide (ext = lit ".txt") then
    text ← call (fun _ => EvReadText tmp_path (lit "utf-8"))
             (Path_read_text tmp_path (lit "utf-8"));
    mret (text, TXT)
  else mret ([], Unknown).

End Code.
End StreamlitApp.

(** ** A simulated installation

    A small in-memory instance of the services, on which the scripts run by
    computation: a table of files, a switch for the models, and a counter of
    the calls served. *)

Module Sim.

Inductive file : Type :=
  | TextPdf (pages : list str)
  | ScannedPdf (page_images : list str)
  | CorruptPdf
  | WordDoc (paras : list str)
  | PlainText (content : str).

Record state : Type := mkState {
  files : list (str * file);
  models_up : bool;
  served : nat
}.

Definition tick (w : state) : state :=
  {| files := files w; models_up := models_up w; served := Datatypes.S (served w) |}.

Fixpoint find_file (p : str) (fs : list (str * file)) : option file :=
  match fs with
  | [] => None
  | (q, f) :: fs' => if decide (p = q) then Some f else find_file p fs'
  end.

Definition lower (s : str) : str :=
  (fun c => if ((65 <=? c) && (c <=? 90))%N then (c + 32)%N else c) <$> s.

(** The suffix of the last path component: from its last dot on, when that
    dot is neither its first nor its last character. *)
Definition suffix (p : str) : str :=
  let name := List.last (split_on 47 p) [] in
  let ext := List.last (split_on period name) [] in
  if decide (length ext = 0%nat) then []
  else if decide (length ext + 1 < length name)%nat then period :: ext
  else [].

Definition open_pdf (p : str) (w : state) : result (list str) * state :=
  (match find_file p (files w) with
   | Some (TextPdf pages) => Ok pages
   | Some (ScannedPdf imgs) => Ok ((fun _ => []) <$> imgs)
   | _ => Raise (LibraryError (lit "FileDataError"))
   end, tick w).

Definition open_docx (p : str) (w : state) : result (list str) * state :=
  (match find_file p (files w) with
   | Some (WordDoc paras) => Ok paras
   | _ => Raise (LibraryError (lit "PackageNotFoundError"))
   end, tick w).

Definition render (p : str) (w : state) : result (list str) * state :=
  (match find_file p (files w) with
   | Some (ScannedPdf imgs) => Ok imgs
   | Some (TextPdf pages) => Ok ((fun _ => []) <$> pages)
   | _ => Raise (LibraryError (lit "PDFPageCountError"))
   end, tick w).

Definition read_text (p : str) (encoding : str) (w : state)
  : result str * state :=
  (match find_file p (files w) with
   | Some (PlainText c) => Ok c
   | Some _ => Raise (LibraryError (lit "UnicodeDecodeError"))
   | None => Raise (LibraryError (lit "FileNotFoundError"))
   end, tick w).

(** The simulated model answers with the first forty characters. *)
Definition summarize (input : str) (max_length min_length : Z)
  (do_sample : bool) (w : state) : result (list (gmap str str)) * state :=
  (if models_up w
   then Ok [ {[ lit "summary_text" := take 40 input ]} ]
   else Raise (LibraryError (lit "RuntimeError")), tick w).

Definition extract_keywords (input : str) (ngram : Z * Z) (stop : str)
  (top_n : Z) (w : state) : result (list (str * nat)) * state :=
  (if models_up w
   then Ok ((fun t => (t, length t)) <$> take (Z.to_nat top_n) (split_ws input))
   else Raise (LibraryError (lit "RuntimeError")), tick w).

#[global] Instance services : Services := {|
  World := state;
  PdfDocument := list str;
  Page := str;
  DocxDocument := list str;
  Paragraph := str;
  Image := str;
  Score := nat;
  Path_suffix := suffix;
  str_lower := lower;
  os_path_exists := fun p w =>
    match find_file p (files w) with Some _ => true | None => false end;
  fitz_open := open_pdf;
  pdf_pages := fun d => d;
  Page_get_text := fun pg w => (Ok pg, tick w);
  docx_Document := open_docx;
  paragraphs := fun d => d;
  Paragraph_text := fun p => p;
  convert_from_path := render;
  image_to_string := fun img w => (Ok img, tick w);
  Path_read_decoded := read_text;
  builtin_print := fun line w => (Ok (), tick w);
  summarizer_call := summarize;
  kw_extract_keywords := extract_keywords;
  json_dumps := fun m indent => lit "{title: " ++ title m ++ lit "}";
  yaml_dump := fun m sort_keys => lit "title: " ++ title m
|}.

(** A disk with one file of each kind. *)
Definition disk : list (str * file) :=
  [ (lit "report.pdf", TextPdf [lit "Annual report. Sales grew. "; lit " End."]);
    (lit "scan.PDF", ScannedPdf [lit "Scanned page one."; lit "page two "]);
    (lit "blank.pdf", ScannedPdf [[]; lit "  "]);
    (lit "broken.pdf", CorruptPdf);
    (lit "memo.docx", WordDoc [lit " Memo"; lit "Buy milk. "]);
    (lit "notes.txt", PlainText (lit "  The quick brown fox. It jumps. "));
    (lit "title.txt", PlainText (lit "no full stop here")) ].

(** The sample sentence of the end-to-end scenario. *)
Definition fox : str := lit "The quick brown fox. It jumps.".

Definition boot : state := {| files := disk; models_up := true; served := 0 |}.
Definition models_down : state :=
  {| files := disk; models_up := false; served := 0 |}.

End Sim.

(** ** Vocabulary of the specification *)

(** The prefix of [s] before the first occurrence of [c]; all of [s] when [c]
    does not occur. *)
Fixpoint before_first (c : N) (s : str) : str :=
  match s with
  | [] => []
  | x :: s' => if (x =? c)%N then [] else x :: before_first c s'
  end.

(** Position [i] of [s] starts a whitespace-delimited token: a character that
    is not whitespace, at the start of [s] or just after a whitespace one. *)
Definition starts_token (s : str) (i : nat) : bool :=
  match s !! i with
  | Some c =>
      negb (is_space c)
      && match i with
         | O => true
         | Datatypes.S j =>
             match s !! j with Some p => is_space p | None => false end
         end
  | None => false
  end.

(** The number of whitespace-delimited tokens of [s]. *)
Definition count_tokens (s : str) : nat :=
  length (List.filter (starts_token s) (seq 0 (length s))).

(** Token starts counted along the string, knowing whether the previous
    character was whitespace. *)
Fixpoint starts_after (prev_space : bool) (s : str) : nat :=
  match s with
  | [] => 0
  | c :: s' =>
      if is_space c then starts_after true s'
      else (if prev_space then 1 else 0) + starts_after false s'
  end%nat.

(** [s] neither starts nor ends with whitespace. *)
Definition trimmed (s : str) : Prop :=
  (forall c s', s = c :: s' -> is_space c = false)
  /\ (forall c s', s = s' ++ [c] -> is_space c = false).

(** The [k]-th block of [n] characters of [text]. *)
Definition block (n : nat) (text : str) (k : nat) : str :=
  take n (drop (k * n) text).

(** The number of blocks of [n] characters needed to cover [text]. *)
Definition block_count (n : nat) (text : str) : nat :=
  Z.to_nat ((Z.of_nat (length text) + Z.of_nat n - 1) / Z.of_nat n).

(** [text] cut into consecutive blocks of [n] characters. *)
Definition blocks (n : nat) (text : str) : list str :=
  block n text <$> seq 0 (block_count n text).

(** The summary carried by a reply of the summarization model, as the scripts
    read it: [reply[0]['summary_text']]. *)
Definition reply_summary (reply : result (list (gmap str str))) : option str :=
  match reply with
  | Ok (first :: _) => first !! lit "summary_text"
  | _ => None
  end.

(** The exception raised when a reply of the summarizer carries no summary. *)
Definition reply_exn (reply : result (list (gmap str str))) : exn :=
  match reply with
  | Raise e => e
  | Ok [] => IndexError
  | Ok (_ :: _) => KeyError (lit "summary_text")
  end.

(** The text the truncating assemblers hand to the summarizer: the first
    1024 characters of a longer text, the whole of a shorter one. *)
Definition short_text (text : str) : str :=
  if decide (1024 < length text)%nat then take 1024 text else text.

(** A record with its document type replaced. *)
Definition with_document_type (label : str) (m : MetadataRecord)
  : MetadataRecord :=
  {| title := title m;
     summary := summary m;
     keywords := keywords m;
     document_type := label;
     word_count := word_count m |}.

Section Vocabulary.
Context `{S : Services}.

(** The calls that make up OCR: page rendering and text recognition. *)
Definition is_ocr_call (ev : event) : bool :=
  match ev with
  | EvConvertFromPath _ | EvImageToString _ => true
  | _ => false
  end.

Definition is_print (ev : event) : bool :=
  match ev with EvPrint _ => true | _ => false end.

(** The transcript of summarizing [inputs] in turn with the fixed bounds of
    the scripts, given the replies. *)
Definition summarize_events (inputs : list str)
  (replies : list (result (list (gmap str str)))) : list event :=
  zip_with (fun c r => EvSummarize c 130 30 false r) inputs replies.

(** The outcome [o] with its result, if any, sent through [f]. *)
Definition map_outcome {A B} (f : A -> B) (o : outcome A) : outcome B :=
  mkOutcome (match res o with Ok a => Ok (f a) | Raise e => Raise e end)
            (world o) (log o).

(** The outcome of a computation that yields a text, paired with a label. *)
Definition labelled (label : str) (o : outcome str) : outcome (str * str) :=
  mkOutcome (match res o with Ok t => Ok (t, label) | Raise e => Raise e end)
            (world o) (log o).

(** What the dispatch [run] does on the PDF at [path], in terms of the direct
    extraction [direct] and of the OCR extraction [ocr] of the same file. *)
Definition pdf_fallback (path : str) (direct ocr : M str)
  (run : M (str * str)) (w : World) : Prop :=
  forall text,
    res (direct w) = Ok text ->
    (text = [] ->
       res (run w) = res (labelled Scanned_PDF (ocr (world (direct w))))
       /\ world (run w) = world (ocr (world (direct w)))
       /\ log (run w) = log (direct w) ++ log (ocr (world (direct w)))
       /\ EvConvertFromPath path ∈ log (run w))
    /\ (text <> [] ->
          res (run w) = Ok (text, PDF)
          /\ world (run w) = world (direct w)
          /\ log (run w) = log (direct w)
          /\ existsb is_ocr_call (log (run w)) = false).

(** [Scanned PDF] is reported by [run] only for a PDF whose direct extraction
    gave the empty string. *)
Definition scanned_only_if_empty (ext : str) (direct : M str)
  (run : M (str * str)) (w : World) : Prop :=
  forall text,
    res (run w) = Ok (text, Scanned_PDF) ->
    ext = lit ".pdf" /\ res (direct w) = Ok [].

(** The extension dispatch of each script: [run] extracts the file stored at
    [path] whose declared name is [name]. *)
Inductive dispatch : str -> str -> M (str * str) -> Prop :=
  | dispatch_notebook path :
      dispatch path path (Notebook.process_file path)
  | dispatch_app name path :
      dispatch name path (StreamlitApp.extract_uploaded name path)
  | dispatch_enhanced name path :
      dispatch name path (Enhanced.extract_uploaded name path).

(** The metadata assemblers of the scripts; the first two truncate the text
    before summarizing, the third one summarizes it by chunks. *)
Inductive truncating : (str -> str -> M MetadataRecord) -> Prop :=
  | truncating_notebook : truncating Notebook.generate_metadata
  | truncating_app : truncating StreamlitApp.generate_metadata.

Inductive assembler : (str -> str -> M MetadataRecord) -> Prop :=
  | assembler_truncating gm : truncating gm -> assembler gm
  | assembler_chunked : assembler Enhanced.generate_metadata.

End Vocabulary.

(** ** Further vocabulary *)

(** The parts put end to end with exactly one space character (U+0020)
    between two neighbours, and nothing before the first or after the
    last. *)
Definition spaced (parts : list str) : str :=
  match parts with
  | [] => []
  | first :: others => first ++ concat ((fun part => 32%N :: part) <$> others)
  end.

(** [s] holds whitespace only (the empty string included). *)
Definition blank (s : str) : bool := forallb is_space s.

(** The characters of [s] that are not whitespace, in order. *)
Definition visible (s : str) : str :=
  List.filter (fun c => negb (is_space c)) s.


Section Transcripts.
Context `{S : Services}.

(** Calls to the summarization and keyword models. *)
Definition is_model_call (ev : event) : bool :=
  match ev with
  | EvSummarize _ _ _ _ _ | EvKeywords _ _ _ _ _ => true
  | _ => false
  end.

(** Calls that open, read, render or recognise a document. *)
Definition is_extraction_call (ev : event) : bool :=
  match ev with
  | EvFitzOpen _ | EvGetText _ | EvDocxDocument _
  | EvConvertFromPath _ | EvImageToString _ | EvReadText _ _ => true
  | _ => false
  end.

(** A model call as the assemblers make it on [text]: the summarizer with the
    bounds 130, 30 and no sampling on a piece of [text] of at most 1024
    characters; the keyword extractor on the whole of [text] with n-grams of
    one or two words, the English stop words and eight phrases asked for. *)
Definition standard_model_call (text : str) (ev : event) : Prop :=
  match ev with
  | EvSummarize input max_length min_length do_sample _ =>
      max_length = 130 /\ min_length = 30 /\ do_sample = false
      /\ (length input <= 1024)%nat
      /\ exists before after, text = before ++ input ++ after
  | EvKeywords input ngram_range stop_words top_n _ =>
      input = text /\ ngram_range = (1, 2)
      /\ stop_words = lit "english" /\ top_n = 8
  | _ => False
  end.



End Transcripts.

(** ** A second simulated installation

    The disk of [Sim] with a few more files (among them a text file with DOS
    line endings), and a summarizer that can answer with a malformed reply:
    no entry at all for an input starting with [E], an entry without the key
    [summary_text] for one starting with [K], and otherwise two entries of
    which the scripts read the first.  Two variants follow: one behind a
    standard output that encodes ASCII only, one whose PDF parser and OCR
    engine fail on a marked page. *)

Module Lab.

Definition disk : list (str * Sim.file) :=
  Sim.disk
  ++ [ (lit "table.csv", Sim.PlainText (lit "a,b"));
       (lit "spaces.txt", Sim.PlainText (lit "   "));
       (lit "dos.txt", Sim.PlainText (lit "one" ++ [13; 10]%N ++ lit "two"
                                        ++ [13; 10]%N));
       (lit "smudged.pdf", Sim.ScannedPdf [lit "first page"; lit "smudge";
                                            lit "third page"]);
       (lit "torn.pdf", Sim.TextPdf [lit "cover"; lit "torn"]) ].

Definition boot : Sim.state :=
  {| Sim.files := disk; Sim.models_up := true; Sim.served := 0 |}.

Definition summarize (input : str) (max_length min_length : Z)
  (do_sample : bool) (w : Sim.state)
  : result (list (gmap str str)) * Sim.state :=
  (match input with
   | 69%N :: _ => Ok []
   | 75%N :: _ => Ok [ {[ lit "score" := lit "1" ]} ]
   | _ => Ok [ {[ lit "summary_text" := take 40 input ]};
               {[ lit "summary_text" := lit "second entry" ]} ]
   end, Sim.tick w).

Definition services : Services := {|
  World := Sim.state;
  PdfDocument := list str;
  Page := str;
  DocxDocument := list str;
  Paragraph := str;
  Image := str;
  Score := nat;
  Path_suffix := Sim.suffix;
  str_lower := Sim.lower;
  os_path_exists := fun p w =>
    match Sim.find_file p (Sim.files w) with Some _ => true | None => false end;
  fitz_open := Sim.open_pdf;
  pdf_pages := fun d => d;
  Page_get_text := fun pg w => (Ok pg, Sim.tick w);
  docx_Document := Sim.open_docx;
  paragraphs := fun d => d;
  Paragraph_text := fun p => p;
  convert_from_path := Sim.render;
  image_to_string := fun img w => (Ok img, Sim.tick w);
  Path_read_decoded := Sim.read_text;
  builtin_print := fun line w => (Ok (), Sim.tick w);
  summarizer_call := summarize;
  kw_extract_keywords := Sim.extract_keywords;
  json_dumps := fun m indent => lit "{title: " ++ title m ++ lit "}";
  yaml_dump := fun m sort_keys => lit "title: " ++ title m
|}.

(** A standard output that encodes ASCII only: printing any other character
    raises [UnicodeEncodeError]. *)
Definition print_ascii (line : str) (w : Sim.state)
  : result () * Sim.state :=
  (if forallb (fun c => (c <? 128)%N) line then Ok ()
   else Raise (LibraryError (lit "UnicodeEncodeError")), Sim.tick w).

(** The installation [Sim] behind such a standard output. *)
Definition ascii_terminal : Services := {|
  World := Sim.state;
  PdfDocument := list str;
  Page := str;
  DocxDocument := list str;
  Paragraph := str;
  Image := str;
  Score := nat;
  Path_suffix := Sim.suffix;
  str_lower := Sim.lower;
  os_path_exists := fun p w =>
    match Sim.find_file p (Sim.files w) with Some _ => true | None => false end;
  fitz_open := Sim.open_pdf;
  pdf_pages := fun d => d;
  Page_get_text := fun pg w => (Ok pg, Sim.tick w);
  docx_Document := Sim.open_docx;
  paragraphs := fun d => d;
  Paragraph_text := fun p => p;
  convert_from_path := Sim.render;
  image_to_string := fun img w => (Ok img, Sim.tick w);
  Path_read_decoded := Sim.read_text;
  builtin_print := print_ascii;
  summarizer_call := Sim.summarize;
  kw_extract_keywords := Sim.extract_keywords;
  json_dumps := fun m indent => lit "{title: " ++ title m ++ lit "}";
  yaml_dump := fun m sort_keys => lit "title: " ++ title m
|}.



End Lab.

(** * Properties *)

(** ** Strings *)

Example split_ws_sample :
  split_ws (lit "  a bc   d ") = [lit "a"; lit "bc"; lit "d"].
Proof. reflexivity. Qed.

Example split_on_sample :
  split_on period (lit "a.b..c") = [lit "a"; lit "b"; []; lit "c"]
  /\ split_on period (lit "abc") = [lit "abc"]
  /\ split_on period [] = [[]].
Proof. by repeat split. Qed.

Example strip_sample :
  strip (lit "  a b  ") = lit "a b" /\ strip ([10; 9; 160]%N) = [].
Proof. by split. Qed.

Example range_sample :
  range 0 2500 1000 = [0; 1000; 2000]
  /\ range 0 3000 1000 = [0; 1000; 2000]
  /\ range 0 0 1000 = []
  /\ range 0 10 (-3) = []
  /\ range 10 0 (-3) = [10; 7; 4; 1].
Proof. by repeat split. Qed.

Example upto_sample :
  upto [1; 2; 3; 4] 2 = [1; 2]
  /\ upto [1; 2; 3; 4] 9 = [1; 2; 3; 4]
  /\ upto [1; 2; 3; 4] (-1) = [1; 2; 3]
  /\ upto [1; 2; 3; 4] (-9) = [].
Proof. by repeat split. Qed.

Example count_tokens_sample : count_tokens Sim.fox = 6%nat.
Proof. reflexivity. Qed.

Example blocks_sample :
  blocks 4 (lit "abcdefghij") = [lit "abcd"; lit "efgh"; lit "ij"].
Proof. reflexivity. Qed.

Lemma split_on_nonempty sep s : split_on sep s <> [].
Proof. induction s as [|c s IH]; simpl; [done|]. by repeat case_match. Qed.

Lemma split_on_head sep s :
  exists rest, split_on sep s = before_first sep s :: rest.
Proof.
  induction s as [|c s [rest IH]]; simpl.
  - by exists [].
  - destruct (c =? sep)%N; [eauto|]. rewrite IH. eauto.
Qed.

Lemma before_first_split c s :
  exists rest,
    s = before_first c s ++ rest
    /\ (rest = [] \/ exists rest', rest = c :: rest').
Proof.
  induction s as [|x s (rest & IH & Hrest)]; simpl.
  - exists []. auto.
  - destruct (x =? c)%N eqn:E.
    + apply N.eqb_eq in E as ->. exists (c :: s). eauto.
    + exists rest. split; [simpl; congruence|done].
Qed.

Lemma before_first_free c s : c ∉ before_first c s.
Proof.
  induction s as [|x s IH]; simpl; [apply not_elem_of_nil|].
  destruct (x =? c)%N eqn:E; [apply not_elem_of_nil|].
  apply N.eqb_neq in E. rewrite not_elem_of_cons. auto.
Qed.

Lemma before_first_absent c s : c ∉ s -> before_first c s = s.
Proof.
  induction s as [|x s IH]; simpl; [done|].
  rewrite not_elem_of_cons. intros [Hne Hs].
  destruct (x =? c)%N eqn:E.
  - apply N.eqb_eq in E. congruence.
  - by rewrite IH.
Qed.


Lemma split_ws_from_length cur s :
  length (split_ws_from cur s)
  = match cur with
    | [] => starts_after true s
    | _ => Datatypes.S (starts_after false s)
    end.
Proof.
  revert cur. induction s as [|c s IH]; intros cur; simpl.
  - by destruct cur.
  - destruct (is_space c).
    + destruct cur; simpl; rewrite IH; done.
    + rewrite IH. by destruct cur.
Qed.

Lemma starts_token_shift p s j :
  starts_token (p :: s) (Datatypes.S (Datatypes.S j))
  = starts_token s (Datatypes.S j).
Proof. reflexivity. Qed.

Lemma count_shift p s a n :
  length (List.filter (starts_token (p :: s))
            (seq (Datatypes.S (Datatypes.S a)) n))
  = length (List.filter (starts_token s) (seq (Datatypes.S a) n)).
Proof.
  revert a. induction n as [|n IH]; intros a; [done|].
  cbn [seq List.filter]. rewrite starts_token_shift.
  destruct (starts_token s (Datatypes.S a)); simpl; by rewrite IH.
Qed.

Lemma count_from_one p s :
  length (List.filter (starts_token (p :: s)) (seq 1 (length s)))
  = starts_after (is_space p) s.
Proof.
  revert p. induction s as [|c s IH]; intros p; [done|].
  cbn [length seq List.filter starts_after].
  replace (starts_token (p :: c :: s) 1) with (negb (is_space c) && is_space p)
    by reflexivity.
  destruct (is_space c) eqn:Ec; simpl negb; cbn [andb].
  - by rewrite count_shift, IH, Ec.
  - destruct (is_space p); cbn [length]; by rewrite count_shift, IH, Ec.
Qed.

Lemma count_tokens_starts s : count_tokens s = starts_after true s.
Proof.
  unfold count_tokens. destruct s as [|c s]; [done|].
  cbn [length seq List.filter starts_after].
  replace (starts_token (c :: s) 0) with (negb (is_space c)) by
    (unfold starts_token; simpl; by rewrite andb_true_r).
  destruct (is_space c) eqn:E; simpl negb; cbn [length];
    rewrite count_from_one, E; done.
Qed.

(** [len(text.split())] is the number of whitespace-delimited tokens. *)
Lemma split_ws_count s : length (split_ws s) = count_tokens s.
Proof.
  unfold split_ws. by rewrite split_ws_from_length, count_tokens_starts.
Qed.

Lemma lstrip_head s c s' : lstrip s = c :: s' -> is_space c = false.
Proof.
  induction s as [|x s IH]; simpl; [done|].
  destruct (is_space x) eqn:E; [done|]. intros [= -> _]. done.
Qed.

Lemma lstrip_snoc s c : is_space c = false -> lstrip (s ++ [c]) = lstrip s ++ [c].
Proof.
  intros Hc. induction s as [|x s IH]; simpl; [by rewrite Hc|].
  by destruct (is_space x).
Qed.

Lemma rstrip_last s c s' : rstrip s = s' ++ [c] -> is_space c = false.
Proof.
  unfold rstrip. intros H.
  apply (f_equal reverse) in H.
  rewrite reverse_involutive, reverse_snoc in H.
  by apply lstrip_head in H.
Qed.

Lemma rstrip_cons s c : is_space c = false -> rstrip (c :: s) = c :: rstrip s.
Proof.
  intros Hc. unfold rstrip.
  by rewrite reverse_cons, lstrip_snoc, reverse_snoc.
Qed.

(** [s.strip()] neither starts nor ends with whitespace. *)
Lemma strip_trimmed s : trimmed (strip s).
Proof.
  unfold strip. split; intros c s' H.
  - destruct (lstrip s) as [|x u] eqn:E; [done|].
    pose proof (lstrip_head _ _ _ E) as Hx.
    rewrite rstrip_cons in H by done. by injection H as -> _.
  - by apply rstrip_last in H.
Qed.

Lemma lstrip_trimmed s : trimmed s -> lstrip s = s.
Proof.
  intros [Hh _]. destruct s as [|c s]; [done|].
  simpl. by rewrite (Hh c s).
Qed.

Lemma strip_fixed s : trimmed s -> strip s = s.
Proof.
  intros Ht. unfold strip. rewrite lstrip_trimmed by done.
  unfold rstrip. destruct Ht as [_ Hl].
  rewrite <- (reverse_involutive s) at 2. f_equal.
  destruct (reverse s) as [|c u] eqn:E; [done|].
  simpl. rewrite (Hl c (reverse u)); [done|].
  by rewrite <- reverse_cons, <- E, reverse_involutive.
Qed.

(** ** Blocks of a text *)

Lemma blocks_prefix n text m :
  concat (block n text <$> seq 0 m) = take (m * n) text.
Proof.
  induction m as [|m IH]; [done|].
  rewrite seq_S, fmap_app, concat_app, IH. simpl.
  rewrite app_nil_r. unfold block. rewrite take_take_drop.
  f_equal. lia.
Qed.

Lemma block_count_cover n text :
  (0 < n)%nat -> (length text <= block_count n text * n)%nat.
Proof.
  intros Hn. unfold block_count.
  assert (0 <= (Z.of_nat (length text) + Z.of_nat n - 1) / Z.of_nat n)
    by (apply Z.div_pos; lia).
  pose proof (Z.mul_succ_div_gt
                (Z.of_nat (length text) + Z.of_nat n - 1) (Z.of_nat n)).
  nia.
Qed.

Lemma block_count_tight n text :
  (0 < n)%nat -> (block_count n text * n < length text + n)%nat.
Proof.
  intros Hn. unfold block_count.
  assert (0 <= (Z.of_nat (length text) + Z.of_nat n - 1) / Z.of_nat n)
    by (apply Z.div_pos; lia).
  pose proof (Z.mul_div_le
                (Z.of_nat (length text) + Z.of_nat n - 1) (Z.of_nat n)).
  nia.
Qed.

(** The blocks, put end to end, are the text. *)
Lemma blocks_concat n text : (0 < n)%nat -> concat (blocks n text) = text.
Proof.
  intros Hn. unfold blocks. rewrite blocks_prefix.
  apply take_ge. by apply block_count_cover.
Qed.

Lemma blocks_length n text : length (blocks n text) = block_count n text.
Proof. unfold blocks. by rewrite length_fmap, length_seq. Qed.

Lemma blocks_lookup n text k :
  (k < block_count n text)%nat -> blocks n text !! k = Some (block n text k).
Proof.
  intros Hk. unfold blocks. rewrite list_lookup_fmap.
  by rewrite lookup_seq_lt.
Qed.

(** Every block but the last has [n] characters; the last one has between
    one and [n]. *)
Lemma block_length n text k :
  (0 < n)%nat -> (k < block_count n text)%nat ->
  (if decide (Datatypes.S k = block_count n text)
   then 0 < length (block n text k) <= n
   else length (block n text k) = n)%nat.
Proof.
  intros Hn Hk. unfold block. rewrite length_take, length_drop.
  pose proof (block_count_cover n text Hn).
  pose proof (block_count_tight n text Hn).
  case_decide; nia.
Qed.

(** The first [j] blocks cover exactly the first [j * n] characters. *)
Lemma blocks_take n text j :
  (0 < n)%nat -> concat (take j (blocks n text)) = take (j * n) text.
Proof.
  intros Hn. unfold blocks. rewrite <- fmap_take, take_seq, blocks_prefix.
  destruct (decide (j <= block_count n text)%nat).
  - by rewrite Nat.min_l.
  - rewrite Nat.min_r by lia.
    pose proof (block_count_cover n text Hn).
    rewrite !take_ge; [done|nia|nia].
Qed.

(** ** Computations *)

Section Computations.
Context `{S : Services}.

Lemma bind_ok {A B} (m : M A) (k : A -> M B) w a :
  res (m w) = Ok a ->
  (m ≫= k) w
  = mkOutcome (res (k a (world (m w)))) (world (k a (world (m w))))
              (log (m w) ++ log (k a (world (m w)))).
Proof.
  intros H. unfold mbind, M_bind, bind. by rewrite H.
Qed.

Lemma bind_raise {A B} (m : M A) (k : A -> M B) w e :
  res (m w) = Raise e ->
  (m ≫= k) w = mkOutcome (Raise e) (world (m w)) (log (m w)).
Proof.
  intros H. unfold mbind, M_bind, bind. by rewrite H.
Qed.

Lemma bind_res_ok {A B} (m : M A) (k : A -> M B) w b :
  res ((m ≫= k) w) = Ok b ->
  exists a, res (m w) = Ok a /\ res (k a (world (m w))) = Ok b.
Proof.
  destruct (res (m w)) as [a|e] eqn:E.
  - rewrite (bind_ok _ _ _ _ E). eauto.
  - by rewrite (bind_raise _ _ _ _ E).
Qed.

Lemma mret_run {A} (a : A) w : (mret a : M A) w = mkOutcome (Ok a) w [].
Proof. reflexivity. Qed.

Lemma call_log {A} ev (f : World -> result A * World) w :
  log (call ev f w) = [ev (f w).1].
Proof. unfold call. by destruct (f w). Qed.

Lemma call_res {A} ev (f : World -> result A * World) w :
  res (call ev f w) = (f w).1.
Proof. unfold call. by destruct (f w). Qed.

Lemma call_world {A} ev (f : World -> result A * World) w :
  world (call ev f w) = (f w).2.
Proof. unfold call. by destruct (f w). Qed.

(** A transcript of [mapM f] holds only entries that [f] can log. *)
Lemma mapM_log {A B} (P : event -> bool) (f : A -> M B) l w :
  (forall x w', existsb P (log (f x w')) = false) ->
  existsb P (log (mapM f l w)) = false.
Proof.
  intros Hf. revert w. induction l as [|x l IH]; intros w; [done|].
  cbn [mapM]. destruct (res (f x w)) as [y|e] eqn:E.
  - rewrite (bind_ok _ _ _ _ E). cbn [log]. rewrite existsb_app, Hf.
    destruct (res (mapM f l (world (f x w)))) as [ys|e] eqn:E'.
    + rewrite (bind_ok _ _ _ _ E'). cbn [log mret M_ret ret].
      by rewrite app_nil_r, IH.
    + rewrite (bind_raise _ _ _ _ E'). cbn [log]. by rewrite IH.
  - rewrite (bind_raise _ _ _ _ E). cbn [log]. apply Hf.
Qed.

(** The direct extraction never touches the OCR services. *)
Lemma direct_extraction_no_ocr path w :
  existsb is_ocr_call (log (StreamlitApp.extract_text_from_pdf path w)) = false.
Proof.
  unfold StreamlitApp.extract_text_from_pdf.
  set (c := call _ _).
  destruct (res (c w)) as [doc|e] eqn:E.
  - rewrite (bind_ok _ _ _ _ E). cbn [log]. rewrite existsb_app.
    unfold c at 1. rewrite call_log. cbn [existsb is_ocr_call orb].
    set (texts := mapM _ _).
    assert (Hm : forall w', existsb is_ocr_call (log (texts w')) = false).
    { intros w'. apply mapM_log. intros x w''. by rewrite call_log. }
    destruct (res (texts (world (c w)))) as [ts|e] eqn:E'.
    + rewrite (bind_ok _ _ _ _ E'). cbn [log mret M_ret ret].
      by rewrite app_nil_r, Hm.
    + rewrite (bind_raise _ _ _ _ E'). cbn [log]. apply Hm.
  - rewrite (bind_raise _ _ _ _ E). cbn [log]. unfold c. by rewrite call_log.
Qed.

(** OCR starts by rendering the pages of the file. *)
Lemma ocr_renders_first path w :
  exists tail,
    log (StreamlitApp.extract_text_via_ocr path w)
    = EvConvertFromPath path :: tail.
Proof.
  unfold StreamlitApp.extract_text_via_ocr.
  set (c := call _ _).
  assert (Hc : log (c w) = [EvConvertFromPath path])
    by (unfold c; by rewrite call_log).
  destruct (res (c w)) as [imgs|e] eqn:E.
  - rewrite (bind_ok _ _ _ _ E). cbn [log]. rewrite Hc. eauto.
  - rewrite (bind_raise _ _ _ _ E). cbn [log]. rewrite Hc. eauto.
Qed.

(** The three scripts share one dispatch. *)
Lemma process_file_dispatch path :
  Notebook.process_file path = StreamlitApp.extract_uploaded path path.
Proof. reflexivity. Qed.

Lemma enhanced_dispatch name path :
  Enhanced.extract_uploaded name path = StreamlitApp.extract_uploaded name path.
Proof. reflexivity. Qed.

End Computations.

(** ** Text extraction *)

Section Extraction.
Context `{S : Services}.

Lemma dispatch_shared name path run :
  dispatch name path run -> run = StreamlitApp.extract_uploaded name path.
Proof. by intros []. Qed.

Lemma direct_extraction_trimmed path w t :
  res (StreamlitApp.extract_text_from_pdf path w) = Ok t -> trimmed t.
Proof.
  unfold StreamlitApp.extract_text_from_pdf. intros H.
  apply bind_res_ok in H as (doc & _ & H).
  apply bind_res_ok in H as (texts & _ & H).
  rewrite mret_run in H. injection H as <-. apply strip_trimmed.
Qed.

Lemma ocr_extraction_trimmed path w t :
  res (StreamlitApp.extract_text_via_ocr path w) = Ok t -> trimmed t.
Proof.
  unfold StreamlitApp.extract_text_via_ocr. intros H.
  apply bind_res_ok in H as (imgs & _ & H).
  apply bind_res_ok in H as (texts & _ & H).
  rewrite mret_run in H. injection H as <-. apply strip_trimmed.
Qed.

Lemma docx_extraction_trimmed path w t :
  res (StreamlitApp.extract_text_from_docx path w) = Ok t -> trimmed t.
Proof.
  unfold StreamlitApp.extract_text_from_docx. intros H.
  apply bind_res_ok in H as (doc & _ & H).
  rewrite mret_run in H. injection H as <-. apply strip_trimmed.
Qed.

Lemma extract_uploaded_pdf name path :
  str_lower (Path_suffix name) = lit ".pdf" ->
  StreamlitApp.extract_uploaded name path
  = (StreamlitApp.extract_text_from_pdf path ≫= fun text =>
       if negb (truthy text)
       then StreamlitApp.extract_text_via_ocr path ≫= fun text =>
              mret (text, Scanned_PDF)
       else mret (text, PDF)).
Proof.
  intros Hext. unfold StreamlitApp.extract_uploaded. by rewrite decide_True.
Qed.

Lemma extract_uploaded_docx name path :
  str_lower (Path_suffix name) = lit ".docx" ->
  StreamlitApp.extract_uploaded name path
  = (StreamlitApp.extract_text_from_docx path ≫= fun text => mret (text, DOCX)).
Proof.
  intros Hext. unfold StreamlitApp.extract_uploaded.
  rewrite decide_False, decide_True; [done..|].
  rewrite Hext. by vm_compute.
Qed.

Lemma extract_uploaded_txt name path :
  str_lower (Path_suffix name) = lit ".txt" ->
  StreamlitApp.extract_uploaded name path
  = (call (fun _ => EvReadText path (lit "utf-8"))
          (Path_read_text path (lit "utf-8")) ≫= fun text => mret (text, TXT)).
Proof.
  intros Hext. unfold StreamlitApp.extract_uploaded.
  rewrite decide_False, decide_False, decide_True; [done..| |];
    rewrite Hext; by vm_compute.
Qed.

Lemma extract_uploaded_other name path :
  str_lower (Path_suffix name) <> lit ".pdf" ->
  str_lower (Path_suffix name) <> lit ".docx" ->
  str_lower (Path_suffix name) <> lit ".txt" ->
  StreamlitApp.extract_uploaded name path = mret ([], Unknown).
Proof.
  intros H1 H2 H3. unfold StreamlitApp.extract_uploaded.
  by rewrite !decide_False.
Qed.

Lemma pdf_fallback_shared name path w :
  str_lower (Path_suffix name) = lit ".pdf" ->
  pdf_fallback path (StreamlitApp.extract_text_from_pdf path)
    (StreamlitApp.extract_text_via_ocr path)
    (StreamlitApp.extract_uploaded name path) w.
Proof.
  intros Hext text Hd. rewrite (extract_uploaded_pdf _ _ Hext).
  rewrite (bind_ok _ _ _ _ Hd). split.
  - intros ->. cbn [truthy negb res world log].
    set (w1 := world _).
    destruct (ocr_renders_first path w1) as [tail Htail].
    unfold labelled.
    destruct (res (StreamlitApp.extract_text_via_ocr path w1)) as [t|e] eqn:E.
    + rewrite (bind_ok _ _ _ _ E). cbn [res world log mret M_ret ret].
      rewrite app_nil_r. repeat split; [done..|].
      rewrite Htail, elem_of_app, elem_of_cons. auto.
    + rewrite (bind_raise _ _ _ _ E). cbn [res world log].
      repeat split; [done..|].
      rewrite Htail, elem_of_app, elem_of_cons. auto.
  - intros Hne. destruct text as [|c text]; [done|].
    cbn [truthy negb res world log mret M_ret ret].
    rewrite app_nil_r. repeat split; [done..|].
    apply direct_extraction_no_ocr.
Qed.

Lemma scanned_only_if_empty_shared name path w :
  scanned_only_if_empty (str_lower (Path_suffix name))
    (StreamlitApp.extract_text_from_pdf path)
    (StreamlitApp.extract_uploaded name path) w.
Proof.
  intros text H.
  destruct (decide (str_lower (Path_suffix name) = lit ".pdf")) as [Hp|Hp].
  - split; [done|]. rewrite (extract_uploaded_pdf _ _ Hp) in H.
    apply bind_res_ok in H as (t & Hd & H).
    destruct t as [|c t]; [done|].
    cbn [truthy negb] in H. rewrite mret_run in H. by vm_compute in H.
  - exfalso.
    destruct (decide (str_lower (Path_suffix name) = lit ".docx")) as [Hd|Hd].
    { rewrite (extract_uploaded_docx _ _ Hd) in H.
      apply bind_res_ok in H as (t & _ & H).
      rewrite mret_run in H. by vm_compute in H. }
    destruct (decide (str_lower (Path_suffix name) = lit ".txt")) as [Ht|Ht].
    { rewrite (extract_uploaded_txt _ _ Ht) in H.
      apply bind_res_ok in H as (t & _ & H).
      rewrite mret_run in H. by vm_compute in H. }
    rewrite (extract_uploaded_other _ _ Hp Hd Ht), mret_run in H.
    by vm_compute in H.
Qed.

End Extraction.

(** The scripts define the same three extraction functions. *)
Lemma extraction_shared `{S : Services} :
  Notebook.extract_text_from_pdf = StreamlitApp.extract_text_from_pdf
  /\ Enhanced.extract_text_from_pdf = StreamlitApp.extract_text_from_pdf
  /\ Notebook.extract_text_via_ocr = StreamlitApp.extract_text_via_ocr
  /\ Enhanced.extract_text_via_ocr = StreamlitApp.extract_text_via_ocr
  /\ Notebook.extract_text_from_docx = StreamlitApp.extract_text_from_docx
  /\ Enhanced.extract_text_from_docx = StreamlitApp.extract_text_from_docx.
Proof. by repeat split. Qed.

(** C1. On a PDF whose direct text-layer extraction yields the empty string,
    the dispatch goes on with OCR (the page rendering call is in the
    transcript) and labels whatever OCR returns [Scanned PDF]; when the direct
    extraction yields a non-empty text, the label is [PDF] and no OCR call is
    in the transcript.  Conversely the label [Scanned PDF] is produced only
    for the extension [.pdf] with an empty direct extraction. *)
Theorem pdf_scanned_exactly_on_empty_text_layer `{S : Services}
  (name path : str) (run : M (str * str)) (w : World) :
  dispatch name path run ->
  (str_lower (Path_suffix name) = lit ".pdf" ->
     pdf_fallback path (StreamlitApp.extract_text_from_pdf path)
       (StreamlitApp.extract_text_via_ocr path) run w)
  /\ scanned_only_if_empty (str_lower (Path_suffix name))
       (StreamlitApp.extract_text_from_pdf path) run w.
Proof.
  intros Hrun. rewrite (dispatch_shared _ _ _ Hrun). split.
  - apply pdf_fallback_shared.
  - apply scanned_only_if_empty_shared.
Qed.

Lemma pdf_scanned_exactly_on_empty_text_layer_witness :
  (let run := Notebook.process_file (lit "scan.PDF") in
   res (run Sim.boot) = Ok (lit "Scanned page one." ++ newline ++ lit "page two",
                            Scanned_PDF)
   /\ EvConvertFromPath (lit "scan.PDF") ∈ log (run Sim.boot))
  /\ (let run := StreamlitApp.extract_uploaded (lit "Report.PDF")
                   (lit "report.pdf") in
      res (run Sim.boot) = Ok (lit "Annual report. Sales grew. " ++ newline
                               ++ lit " End.", PDF)
      /\ existsb is_ocr_call (log (run Sim.boot)) = false).
Proof.
  split.
  - destruct (pdf_scanned_exactly_on_empty_text_layer (S := Sim.services)
                (lit "scan.PDF") (lit "scan.PDF") _ Sim.boot
                (dispatch_notebook _)) as [H _].
    destruct (H eq_refl [] eq_refl) as [[Hres (_ & _ & Hlog)] _]; [reflexivity|].
    split; [exact Hres | exact Hlog].
  - destruct (pdf_scanned_exactly_on_empty_text_layer (S := Sim.services)
                (lit "Report.PDF") (lit "report.pdf") _ Sim.boot
                (dispatch_app _ _)) as [H _].
    destruct (H eq_refl _ eq_refl) as [_ [Hres (_ & _ & Hlog)]]; [by vm_compute|].
    split; [exact Hres | exact Hlog].
Defined.

(** Universal newlines leave no carriage return, change nothing in a text
    without one, and never touch a character that is not whitespace. *)
Lemma universal_newlines_facts (n : nat) (s : str) :
  (length s <= n)%nat ->
  (13%N ∉ universal_newlines s)
  /\ (13%N ∉ s -> universal_newlines s = s)
  /\ visible (universal_newlines s) = visible s.
Proof.
  revert s. induction n as [|n IH]; intros s Hlen.
  { destruct s; [|simpl in Hlen; lia]. repeat split; [|done..].
    apply not_elem_of_nil. }
  destruct s as [|c s]; [repeat split; [apply not_elem_of_nil|done..]|].
  simpl in Hlen. cbn [universal_newlines].
  destruct (IH s ltac:(lia)) as (Hs1 & Hs2 & Hs3).
  destruct (N.eqb_spec c 13) as [->|Hc].
  - destruct s as [|d s].
    + repeat split.
      * rewrite not_elem_of_cons. split; [done|apply not_elem_of_nil].
      * rewrite not_elem_of_cons. by intros [? _].
    + simpl in Hlen. destruct (IH s ltac:(lia)) as (Ht1 & Ht2 & Ht3).
      destruct (N.eqb_spec d 10) as [->|Hd].
      * repeat split.
        -- rewrite not_elem_of_cons. by split.
        -- rewrite not_elem_of_cons. by intros [? _].
        -- cbn [visible List.filter is_space]. simpl. apply Ht3.
      * repeat split.
        -- rewrite not_elem_of_cons. by split.
        -- rewrite not_elem_of_cons. by intros [? _].
        -- change (visible (10%N :: universal_newlines (d :: s))
                   = visible (13%N :: d :: s)).
           unfold visible in *. cbn [List.filter]. simpl negb. cbv iota.
           exact Hs3.
  - repeat split.
    + rewrite not_elem_of_cons. split; [congruence|done].
    + rewrite not_elem_of_cons. intros [_ H]. by rewrite Hs2.
    + unfold visible in *. cbn [List.filter]. rewrite Hs3. done.
Qed.

(** C7, as stated, fails: a file with DOS line endings is not returned as it
    is on disk, [read_text] having turned each carriage return and line feed
    into a line feed. *)
Lemma dos_file_not_returned_raw :
  Path_read_decoded (Services := Lab.services) (lit "dos.txt") (lit "utf-8")
    Lab.boot
  = (Ok (lit "one" ++ [13; 10]%N ++ lit "two" ++ [13; 10]%N),
     Sim.tick Lab.boot)
  /\ res (Notebook.process_file (S := Lab.services) (lit "dos.txt") Lab.boot)
     = Ok (lit "one" ++ [10%N] ++ lit "two" ++ [10%N], TXT)
  /\ lit "one" ++ [10%N] ++ lit "two" ++ [10%N]
     <> lit "one" ++ [13; 10]%N ++ lit "two" ++ [13; 10]%N.
Proof. repeat split; by vm_compute. Qed.

(** C7, as amended. For a [.txt] file the dispatch makes the one call that
    reads it and returns, labelled [TXT], the decoded content of the file
    after the universal newlines translation of [read_text] and with no other
    change: nothing is stripped, the text holds no carriage return, it is the
    decoded content itself when that holds no carriage return, and its
    characters other than whitespace are those of the content.  The texts
    returned for [.pdf] and [.docx] files, in contrast, have gone through
    [strip()] and neither start nor end with whitespace. *)
Theorem txt_returned_with_newlines_translated `{S : Services}
  (name path : str) (run : M (str * str)) (w : World) :
  dispatch name path run ->
  (str_lower (Path_suffix name) = lit ".txt" ->
     forall content w',
       Path_read_decoded path (lit "utf-8") w = (Ok content, w') ->
       run w = mkOutcome (Ok (universal_newlines content, TXT)) w'
                 [EvReadText path (lit "utf-8")]
       /\ (13%N ∉ universal_newlines content)
       /\ (13%N ∉ content -> universal_newlines content = content)
       /\ visible (universal_newlines content) = visible content)
  /\ (str_lower (Path_suffix name) = lit ".pdf"
      \/ str_lower (Path_suffix name) = lit ".docx" ->
      forall text label, res (run w) = Ok (text, label) -> trimmed text).
Proof.
  intros Hrun. rewrite (dispatch_shared _ _ _ Hrun). split.
  - intros Hext content w' Hread.
    split; [|exact (universal_newlines_facts _ content (Nat.le_refl _))].
    rewrite (extract_uploaded_txt _ _ Hext).
    set (c := call _ _).
    assert (Hr : Path_read_text path (lit "utf-8") w
                 = (Ok (universal_newlines content), w'))
      by (unfold Path_read_text; by rewrite Hread).
    assert (Hc : res (c w) = Ok (universal_newlines content))
      by (unfold c; by rewrite call_res, Hr).
    rewrite (bind_ok _ _ _ _ Hc). unfold c.
    by rewrite call_world, call_log, Hr.
  - intros [Hext|Hext] text label H.
    + rewrite (extract_uploaded_pdf _ _ Hext) in H.
      apply bind_res_ok in H as (t & Hd & H).
      destruct t as [|c t]; cbn [truthy negb] in H.
      * apply bind_res_ok in H as (t' & Hocr & H).
        rewrite mret_run in H. injection H as <- _.
        by apply ocr_extraction_trimmed in Hocr.
      * rewrite mret_run in H. injection H as <- _.
        by apply direct_extraction_trimmed in Hd.
    + rewrite (extract_uploaded_docx _ _ Hext) in H.
      apply bind_res_ok in H as (t & Hd & H).
      rewrite mret_run in H. injection H as <- _.
      by apply docx_extraction_trimmed in Hd.
Qed.

Lemma txt_returned_with_newlines_translated_witness :
  res (Notebook.process_file (lit "notes.txt") Sim.boot)
  = Ok (lit "  The quick brown fox. It jumps. ", TXT)
  /\ trimmed (lit "Memo" ++ newline ++ lit "Buy milk.").
Proof.
  destruct (txt_returned_with_newlines_translated (S := Sim.services)
              (lit "notes.txt") (lit "notes.txt") _
              Sim.boot (dispatch_notebook _)) as [H _].
  destruct (txt_returned_with_newlines_translated (S := Sim.services)
              (lit "memo.docx") (lit "memo.docx") _
              Sim.boot (dispatch_notebook _)) as [_ H'].
  split.
  - destruct (H eq_refl (lit "  The quick brown fox. It jumps. ")
                (Sim.tick Sim.boot) eq_refl) as [Hrun _].
    by rewrite Hrun.
  - apply (H' (or_intror eq_refl) _ DOCX). reflexivity.
Defined.

(** ** Metadata assembly *)

Section Assembly.
Context `{S : Services}.

Lemma short_text_slice (text : str) :
  (if len text >? 1024 then slice text 0 1024 else text) = short_text text.
Proof.
  unfold short_text, len. case_decide; destruct (Z.gtb_spec (Z.of_nat (length text)) 1024);
    try done; lia.
Qed.

(** One call to the summarizer followed by [reply[0]['summary_text']]. *)
Lemma summarize_once_run {B} (input : str) (k : str -> M B) w :
  let reply := (summarizer_call input 130 30 false w).1 in
  let w1 := (summarizer_call input 130 30 false w).2 in
  (call (EvSummarize input 130 30 false) (summarizer_call input 130 30 false)
     ≫= fun result => index0 result
     ≫= fun first => getitem first (lit "summary_text") ≫= k) w
  = match reply_summary reply with
    | Some s =>
        mkOutcome (res (k s w1)) (world (k s w1))
          (EvSummarize input 130 30 false reply :: log (k s w1))
    | None =>
        mkOutcome (Raise (reply_exn reply)) w1
          [EvSummarize input 130 30 false reply]
    end.
Proof.
  unfold mbind, M_bind, bind, call.
  destruct (summarizer_call input 130 30 false w) as [r w1].
  cbn -[lit]. destruct r as [[|first rest]|e]; cbn -[lit]; [done| |done].
  unfold getitem.
  destruct (first !! lit "summary_text") as [s|]; cbn -[lit]; [|done].
  by destruct (res (k s w1)).
Qed.

(** The end of [generate_metadata], once the summary is known. *)
Lemma assemble_run (text doc_type summary : str) w :
  let reply := (kw_extract_keywords text (1, 2) (lit "english") 8 w).1 in
  let w1 := (kw_extract_keywords text (1, 2) (lit "english") 8 w).2 in
  (call (EvKeywords text (1, 2) (lit "english") 8)
        (kw_extract_keywords text (1, 2) (lit "english") 8)
     ≫= fun keywords => index0 (split_on period summary)
     ≫= fun title =>
          mret {| title := title;
                  summary := summary;
                  keywords := fst <$> keywords;
                  document_type := doc_type;
                  word_count := len (split_ws text) |}) w
  = mkOutcome
      (match reply with
       | Ok kws =>
           Ok {| title := before_first period summary;
                 summary := summary;
                 keywords := fst <$> kws;
                 document_type := doc_type;
                 word_count := len (split_ws text) |}
       | Raise e => Raise e
       end)
      w1 [EvKeywords text (1, 2) (lit "english") 8 reply].
Proof.
  unfold mbind, M_bind, bind, call.
  destruct (kw_extract_keywords text (1, 2) (lit "english") 8 w) as [r w1].
  cbn -[lit split_on]. destruct r as [kws|e]; cbn -[lit split_on]; [|done].
  destruct (split_on_head period summary) as [rest ->]. done.
Qed.

Lemma truncating_shared gm :
  truncating gm -> gm = StreamlitApp.generate_metadata.
Proof. by intros []. Qed.

(** The truncating [generate_metadata], call by call. *)
Lemma generate_metadata_run (text doc_type : str) w :
  let r1 := (summarizer_call (short_text text) 130 30 false w).1 in
  let w1 := (summarizer_call (short_text text) 130 30 false w).2 in
  let r2 := (kw_extract_keywords text (1, 2) (lit "english") 8 w1).1 in
  let w2 := (kw_extract_keywords text (1, 2) (lit "english") 8 w1).2 in
  StreamlitApp.generate_metadata text doc_type w
  = match reply_summary r1 with
    | Some s =>
        mkOutcome
          (match r2 with
           | Ok kws =>
               Ok {| title := before_first period s;
                     summary := s;
                     keywords := fst <$> kws;
                     document_type := doc_type;
                     word_count := len (split_ws text) |}
           | Raise e => Raise e
           end)
          w2
          [EvSummarize (short_text text) 130 30 false r1;
           EvKeywords text (1, 2) (lit "english") 8 r2]
    | None =>
        mkOutcome (Raise (reply_exn r1)) w1
          [EvSummarize (short_text text) 130 30 false r1]
    end.
Proof.
  intros r1 w1 r2 w2. unfold StreamlitApp.generate_metadata.
  cbv zeta. rewrite short_text_slice, summarize_once_run.
  fold r1 w1. destruct (reply_summary r1) as [s|]; [|done].
  by rewrite assemble_run.
Qed.

Lemma enhanced_generate_metadata_run (text doc_type : str) w :
  let o := Enhanced.summarize_long_text text 1000 5 w in
  let r2 := (kw_extract_keywords text (1, 2) (lit "english") 8 (world o)).1 in
  let w2 := (kw_extract_keywords text (1, 2) (lit "english") 8 (world o)).2 in
  Enhanced.generate_metadata text doc_type w
  = match res o with
    | Ok s =>
        mkOutcome
          (match r2 with
           | Ok kws =>
               Ok {| title := before_first period s;
                     summary := s;
                     keywords := fst <$> kws;
                     document_type := doc_type;
                     word_count := len (split_ws text) |}
           | Raise e => Raise e
           end)
          w2 (log o ++ [EvKeywords text (1, 2) (lit "english") 8 r2])
    | Raise e => mkOutcome (Raise e) (world o) (log o)
    end.
Proof.
  intros o r2 w2. unfold Enhanced.generate_metadata. fold o.
  destruct (res o) as [s|e] eqn:E.
  - rewrite (bind_ok _ _ _ _ E). by rewrite assemble_run.
  - by rewrite (bind_raise _ _ _ _ E).
Qed.

(** A record that is produced has the shape the scripts give it. *)
Lemma assembler_record gm text doc_type w m :
  assembler gm ->
  res (gm text doc_type w) = Ok m ->
  exists s kws,
    m = {| title := before_first period s;
           summary := s;
           keywords := kws;
           document_type := doc_type;
           word_count := len (split_ws text) |}.
Proof.
  intros [gm' Hgm|].
  - rewrite (truncating_shared _ Hgm), generate_metadata_run. cbv zeta.
    destruct (reply_summary _) as [s|]; [|done]. cbn [res].
    destruct (kw_extract_keywords _ _ _ _ _).1; [|done].
    intros [= <-]. eauto.
  - rewrite enhanced_generate_metadata_run. cbv zeta.
    destruct (res (Enhanced.summarize_long_text text 1000 5 w)) as [s|];
      [|done]. cbn [res].
    destruct (kw_extract_keywords _ _ _ _ _).1; [|done].
    intros [= <-]. eauto.
Qed.

(** The document type enters the outcome only as a field of the record. *)
Lemma assembler_relabel gm text label label' w :
  assembler gm ->
  gm text label w = map_outcome (with_document_type label) (gm text label' w).
Proof.
  intros [gm' Hgm|]; unfold map_outcome.
  - rewrite (truncating_shared _ Hgm), !generate_metadata_run. cbv zeta.
    destruct (reply_summary _) as [s|]; [|done]. cbn [res world log].
    by destruct (kw_extract_keywords _ _ _ _ _).1.
  - rewrite !enhanced_generate_metadata_run. cbv zeta.
    destruct (res (Enhanced.summarize_long_text text 1000 5 w)) as [s|];
      [|done]. cbn [res world log].
    by destruct (kw_extract_keywords _ _ _ _ _).1.
Qed.

End Assembly.

(** C2. The truncating [generate_metadata] calls the summarizer first, on
    [short_text text]: the first 1024 characters of a text longer than 1024
    characters, the whole text otherwise.  When that reply carries a summary
    the keyword extractor is called next, on the full text; no other call is
    made. *)
Theorem truncation_applies_to_summarizer_only `{S : Services}
  (gm : str -> str -> M MetadataRecord) (text doc_type : str) (w : World) :
  truncating gm ->
  exists reply tail,
    log (gm text doc_type w)
    = EvSummarize (short_text text) 130 30 false reply :: tail
    /\ match reply_summary reply with
       | Some _ =>
           exists kw_reply,
             tail = [EvKeywords text (1, 2) (lit "english") 8 kw_reply]
       | None => tail = []
       end
    /\ ((1024 < length text)%nat ->
        short_text text = take 1024 text
        /\ length (short_text text) = 1024%nat)
    /\ ((length text <= 1024)%nat -> short_text text = text).
Proof.
  intros Hgm. rewrite (truncating_shared _ Hgm), generate_metadata_run.
  cbv zeta.
  set (reply := (summarizer_call (short_text text) 130 30 false w).1).
  assert (Hshort : ((1024 < length text)%nat ->
                    short_text text = take 1024 text
                    /\ length (short_text text) = 1024%nat)
                   /\ ((length text <= 1024)%nat -> short_text text = text)).
  { unfold short_text. case_decide; split; intros ?; try lia; [|done].
    split; [done|]. rewrite length_take. lia. }
  destruct (reply_summary reply) as [s|] eqn:E; cbn [log].
  - eexists reply, _. split; [done|]. rewrite E. split; [eauto|done].
  - exists reply, []. split; [done|]. by rewrite E.
Qed.

Lemma truncation_applies_to_summarizer_only_witness :
  exists reply tail,
    log (Notebook.generate_metadata (replicate 1500 97%N) TXT Sim.boot)
    = EvSummarize (take 1024 (replicate 1500 97%N)) 130 30 false reply :: tail.
Proof.
  destruct (truncation_applies_to_summarizer_only (S := Sim.services)
              Notebook.generate_metadata (replicate 1500 97%N) TXT Sim.boot
              truncating_notebook) as (reply & tail & Hlog & _ & Hlong & _).
  exists reply, tail. rewrite Hlog.
  destruct Hlong as [-> _]; [|done].
  rewrite length_replicate. lia.
Defined.

(** C4, as amended. The title of a produced record is the part of its summary
    that precedes the first period: the summary is the title followed either
    by nothing or by a period and more, and the title holds no period.  When
    the summary holds no period the title is the whole summary. *)
Theorem title_is_summary_up_to_first_period `{S : Services}
  (gm : str -> str -> M MetadataRecord) (text doc_type : str) (w : World)
  (m : MetadataRecord) :
  assembler gm ->
  res (gm text doc_type w) = Ok m ->
  (exists rest,
     summary m = title m ++ rest
     /\ (rest = [] \/ exists rest', rest = period :: rest'))
  /\ (period ∉ title m)
  /\ (period ∉ summary m -> title m = summary m).
Proof.
  intros Hgm Hm.
  destruct (assembler_record _ _ _ _ _ Hgm Hm) as (s & kws & ->).
  cbn [title summary]. split; [apply before_first_split|].
  split; [apply before_first_free | apply before_first_absent].
Qed.

Lemma title_is_summary_up_to_first_period_witness :
  exists m,
    res (Enhanced.generate_metadata Sim.fox TXT Sim.boot) = Ok m
    /\ (period ∉ title m).
Proof.
  destruct (res (Enhanced.generate_metadata (S := Sim.services) Sim.fox TXT
                   Sim.boot))
    as [m|e] eqn:E; [|by vm_compute in E].
  exists m. split; [done|].
  exact (proj1 (proj2 (title_is_summary_up_to_first_period
                         (S := Sim.services) Enhanced.generate_metadata
                         Sim.fox TXT Sim.boot m assembler_chunked E))).
Defined.

(** C4, as stated, fails: a summary without a period gives a title equal to
    that summary, not an empty title. *)
Lemma title_not_empty_without_period :
  exists m,
    res (Notebook.generate_metadata (lit "no full stop here") TXT Sim.boot)
    = Ok m
    /\ (period ∉ summary m)
    /\ title m = lit "no full stop here"
    /\ title m <> [].
Proof.
  eexists. split; [by vm_compute|]. cbn [summary title].
  split; [|split; [by vm_compute | by vm_compute]].
  vm_compute. intros H. repeat (apply elem_of_cons in H as [H|H]; [done|]).
  by apply not_elem_of_nil in H.
Qed.

(** C5. The title of a produced record is the prefix of its summary before
    the first ['.']; when the summary holds no ['.'] the title is the whole
    summary. *)
Theorem title_is_prefix_before_first_dot `{S : Services}
  (gm : str -> str -> M MetadataRecord) (text doc_type : str) (w : World)
  (m : MetadataRecord) :
  assembler gm ->
  res (gm text doc_type w) = Ok m ->
  title m = before_first period (summary m)
  /\ (period ∉ summary m -> title m = summary m).
Proof.
  intros Hgm Hm.
  destruct (assembler_record _ _ _ _ _ Hgm Hm) as (s & kws & ->).
  cbn [title summary]. split; [done | apply before_first_absent].
Qed.

Lemma title_is_prefix_before_first_dot_witness :
  exists m,
    res (StreamlitApp.generate_metadata Sim.fox TXT Sim.boot) = Ok m
    /\ title m = before_first period (summary m).
Proof.
  destruct (res (StreamlitApp.generate_metadata (S := Sim.services) Sim.fox TXT
                   Sim.boot))
    as [m|e] eqn:E; [|by vm_compute in E].
  exists m. split; [done|].
  exact (proj1 (title_is_prefix_before_first_dot
                  (S := Sim.services) StreamlitApp.generate_metadata
                  Sim.fox TXT Sim.boot m
                  (assembler_truncating _ truncating_app) E)).
Defined.

(** C6. The word count of a produced record is the number of
    whitespace-delimited tokens of the full text given to [generate_metadata],
    whatever the models answered and whichever way the text was cut for the
    summarizer. *)
Theorem word_count_counts_tokens_of_full_text `{S : Services}
  (gm : str -> str -> M MetadataRecord) (text doc_type : str) (w : World)
  (m : MetadataRecord) :
  assembler gm ->
  res (gm text doc_type w) = Ok m ->
  word_count m = Z.of_nat (count_tokens text).
Proof.
  intros Hgm Hm.
  destruct (assembler_record _ _ _ _ _ Hgm Hm) as (s & kws & ->).
  cbn [word_count]. unfold len. by rewrite split_ws_count.
Qed.

Lemma word_count_counts_tokens_of_full_text_witness :
  exists m,
    res (Notebook.generate_metadata Sim.fox TXT Sim.boot) = Ok m
    /\ word_count m = 6.
Proof.
  destruct (res (Notebook.generate_metadata (S := Sim.services) Sim.fox TXT
                   Sim.boot))
    as [m|e] eqn:E; [|by vm_compute in E].
  exists m. split; [done|].
  exact (word_count_counts_tokens_of_full_text
           (S := Sim.services) Notebook.generate_metadata
           Sim.fox TXT Sim.boot m
           (assembler_truncating _ truncating_notebook) E).
Defined.

(** C10. Two runs of [generate_metadata] on the same text in the same world
    that differ only in the [doc_type] argument make the same calls, leave the
    same world, and either raise the same exception or return records that
    agree on title, summary, keywords and word count, each carrying its own
    [doc_type] argument as document type, whatever string that is. *)
Theorem doc_type_only_sets_document_type `{S : Services}
  (gm : str -> str -> M MetadataRecord) (text d1 d2 : str) (w : World) :
  assembler gm ->
  world (gm text d1 w) = world (gm text d2 w)
  /\ log (gm text d1 w) = log (gm text d2 w)
  /\ match res (gm text d1 w), res (gm text d2 w) with
     | Ok m1, Ok m2 =>
         title m1 = title m2
         /\ summary m1 = summary m2
         /\ keywords m1 = keywords m2
         /\ word_count m1 = word_count m2
         /\ document_type m1 = d1
         /\ document_type m2 = d2
     | Raise e1, Raise e2 => e1 = e2
     | _, _ => False
     end.
Proof.
  intros Hgm.
  destruct (res (gm text d2 w)) as [m2|e2] eqn:E2.
  - destruct (assembler_record _ _ _ _ _ Hgm E2) as (s & kws & ->).
    rewrite (assembler_relabel gm text d1 d2 w Hgm).
    unfold map_outcome. cbn [world log res]. by rewrite E2.
  - rewrite (assembler_relabel gm text d1 d2 w Hgm).
    unfold map_outcome. cbn [world log res]. by rewrite E2.
Qed.

Lemma doc_type_only_sets_document_type_witness :
  match res (Enhanced.generate_metadata Sim.fox PDF Sim.boot),
        res (Enhanced.generate_metadata Sim.fox (lit "anything at all")
               Sim.boot) with
  | Ok m1, Ok m2 =>
      summary m1 = summary m2 /\ document_type m2 = lit "anything at all"
  | _, _ => False
  end.
Proof.
  pose proof (doc_type_only_sets_document_type (S := Sim.services)
                Enhanced.generate_metadata Sim.fox PDF
                (lit "anything at all") Sim.boot assembler_chunked)
    as (_ & _ & H).
  destruct (res (Enhanced.generate_metadata (S := Sim.services) Sim.fox PDF
                   Sim.boot)) as [m1|e1] eqn:E1; [|by vm_compute in E1].
  destruct (res (Enhanced.generate_metadata (S := Sim.services) Sim.fox
                   (lit "anything at all") Sim.boot)) as [m2|e2];
    [|contradiction].
  by destruct H as (_ & ? & _ & _ & _ & ?).
Defined.

(** ** Summarization by chunks *)

Section Chunks.
Context `{S : Services}.

(** For a positive chunk size the list comprehension yields the blocks. *)
Lemma chunks_of_blocks (text : str) (n : Z) :
  0 < n -> Enhanced.chunks_of text n = mret (blocks (Z.to_nat n) text).
Proof.
  intros Hn. unfold Enhanced.chunks_of.
  destruct (Z.eqb_spec n 0); [lia|]. f_equal.
  unfold range. destruct (Z.ltb_spec 0 n); [|lia].
  unfold blocks, block_count, len.
  rewrite <- list_fmap_compose, Z2Nat.id by lia.
  replace (Z.of_nat (length text) - 0 + n - 1)
    with (Z.of_nat (length text) + n - 1) by lia.
  apply list_fmap_ext. intros _ k _. unfold compose, slice, block.
  f_equal; [f_equal; lia|]. f_equal. lia.
Qed.

(** The loop calls the summarizer on the chunks in order and stops at the
    first reply without a summary. *)
Lemma summarize_chunks_run (chunks : list str) (acc : list str) w :
  exists replies,
    log (Enhanced.summarize_chunks chunks acc w)
    = summarize_events chunks replies
    /\ (length replies <= length chunks)%nat
    /\ match res (Enhanced.summarize_chunks chunks acc w) with
       | Ok out =>
           exists summaries,
             out = acc ++ summaries
             /\ Forall2 (fun r s => reply_summary r = Some s) replies summaries
             /\ length replies = length chunks
       | Raise e =>
           exists r,
             last replies = Some r /\ reply_summary r = None /\ e = reply_exn r
       end.
Proof.
  revert acc w. induction chunks as [|c chunks IH]; intros acc w.
  - exists []. repeat split; [done|]. exists []. by rewrite app_nil_r.
  - cbn [Enhanced.summarize_chunks]. rewrite summarize_once_run. cbv zeta.
    set (r := (summarizer_call c 130 30 false w).1).
    set (w1 := (summarizer_call c 130 30 false w).2).
    destruct (reply_summary r) as [s|] eqn:E.
    + destruct (IH (acc ++ [s]) w1) as (replies & Hlog & Hlen & Hres).
      exists (r :: replies). cbn [res log length].
      split; [by rewrite Hlog|]. split; [lia|].
      destruct (res (Enhanced.summarize_chunks chunks (acc ++ [s]) w1))
        as [out|e].
      * destruct Hres as (ss & -> & Hss & Hl). exists (s :: ss).
        rewrite <- app_assoc. split; [done|]. split; [by constructor|lia].
      * destruct Hres as (r' & Hlast & Hr').
        exists r'. split; [|done]. by rewrite last_cons, Hlast.
    + exists [r]. cbn [res log length].
      split; [unfold summarize_events; cbn [zip_with]; by destruct chunks|].
      split; [lia|]. by exists r.
Qed.

End Chunks.

(** [" ".join(parts)] puts exactly one space between neighbours. *)
Lemma join_space_spaced (parts : list str) : join space parts = spaced parts.
Proof.
  induction parts as [|p parts IH]; [done|].
  destruct parts as [|q parts]; [simpl; by rewrite app_nil_r|].
  change (join space (p :: q :: parts))
    with (p ++ space ++ join space (q :: parts)).
  rewrite IH. unfold spaced, space. rewrite !fmap_cons. cbn [concat].
  reflexivity.
Qed.

(** C3. With chunks of 1000 characters and at most 5 of them,
    [summarize_long_text] cuts the text into consecutive blocks starting at
    offset 0: chunk [k] is the 1000 characters from offset [1000 * k] (fewer,
    but at least one, for the last chunk) and the chunks put end to end are
    the text.  The summarizer is called on the first five chunks, in order,
    which together are the first 5000 characters of the text, and on nothing
    else; the loop stops early only at a reply that carries no summary.  The
    value returned is the summaries of those replies in chunk order with
    exactly one space between two neighbours ([spaced]). *)
Theorem chunked_summary_covers_first_five_blocks `{S : Services}
  (text : str) (w : World) :
  let chunks := blocks 1000 text in
  Enhanced.chunks_of text 1000 w = mkOutcome (Ok chunks) w []
  /\ concat chunks = text
  /\ (forall k chunk,
        chunks !! k = Some chunk ->
        chunk = take 1000 (drop (k * 1000) text)
        /\ (0 < length chunk <= 1000)%nat
        /\ (Datatypes.S k < length chunks -> length chunk = 1000)%nat)
  /\ upto chunks 5 = take 5 chunks
  /\ concat (take 5 chunks) = take 5000 text
  /\ exists replies,
       log (Enhanced.summarize_long_text text 1000 5 w)
       = summarize_events (take 5 chunks) replies
       /\ (length replies <= length (take 5 chunks))%nat
       /\ match res (Enhanced.summarize_long_text text 1000 5 w) with
          | Ok out =>
              exists summaries,
                Forall2 (fun r s => reply_summary r = Some s) replies summaries
                /\ length replies = length (take 5 chunks)
                /\ out = spaced summaries
          | Raise e =>
              exists r,
                last replies = Some r
                /\ reply_summary r = None /\ e = reply_exn r
          end.
Proof.
  intros chunks. subst chunks.
  assert (Hcut : Enhanced.chunks_of text 1000 = mret (blocks 1000 text))
    by (by rewrite chunks_of_blocks).
  split; [by rewrite Hcut|]. split; [by apply blocks_concat; lia|].
  split.
  { intros k chunk Hk.
    assert (k < block_count 1000 text)%nat as Hlt
      by (apply lookup_lt_Some in Hk; by rewrite blocks_length in Hk).
    rewrite (blocks_lookup _ _ _ Hlt) in Hk.
    injection Hk as <-. split; [done|].
    pose proof (block_length 1000 text k ltac:(lia) Hlt) as Hb.
    rewrite blocks_length. case_decide; lia. }
  split; [done|]. split; [apply (blocks_take 1000 text 5); lia|].
  unfold Enhanced.summarize_long_text. rewrite Hcut.
  change (upto (blocks 1000 text) 5) with (take 5 (blocks 1000 text)).
  destruct (summarize_chunks_run (take 5 (blocks 1000 text)) [] w)
    as (replies & Hlog & Hlen & Hres).
  exists replies.
  assert (Hret : res ((mret (blocks 1000 text) : M (list str)) w)
                 = Ok (blocks 1000 text)) by done.
  rewrite (bind_ok _ _ _ _ Hret). cbn [res world log mret M_ret ret app].
  destruct (res (Enhanced.summarize_chunks (take 5 (blocks 1000 text)) [] w))
    as [out|e] eqn:E.
  - rewrite (bind_ok _ _ _ _ E). cbn [res world log mret M_ret ret].
    rewrite app_nil_r. split; [done|]. split; [done|].
    destruct Hres as (ss & -> & Hss & Hl). exists ss.
    by rewrite join_space_spaced.
  - rewrite (bind_raise _ _ _ _ E). cbn [res world log]. done.
Qed.

Lemma chunked_summary_covers_first_five_blocks_witness :
  res (Enhanced.summarize_long_text (replicate 2500 97%N) 1000 5 Sim.boot)
  = Ok (replicate 40 97%N ++ [32%N] ++ replicate 40 97%N ++ [32%N]
        ++ replicate 40 97%N)
  /\ spaced [lit "ab"; lit "c"; []; lit "d"] = lit "ab c  d"
  /\ concat (take 5 (blocks 1000 (replicate 2500 97%N)))
     = take 5000 (replicate 2500 97%N).
Proof.
  split; [by vm_compute|]. split; [reflexivity|].
  exact (proj1 (proj2 (proj2 (proj2 (proj2
           (chunked_summary_covers_first_five_blocks (S := Sim.services)
              (replicate 2500 97%N) Sim.boot)))))).
Defined.

(** ** The notebook entry point *)

Section EntryPoint.
Context `{S : Services}.

Lemma query_bind {A B} ev (f : World -> A) (k : A -> M B) w :
  (query ev f ≫= k) w
  = mkOutcome (res (k (f w) w)) (world (k (f w) w)) (ev :: log (k (f w) w)).
Proof. reflexivity. Qed.

Lemma print_run line w :
  print line w
  = mkOutcome (builtin_print line w).1 (builtin_print line w).2 [EvPrint line].
Proof. unfold print, call. by destruct (builtin_print line w). Qed.

Lemma main_missing path w :
  os_path_exists path w = false ->
  Notebook.main path w
  = mkOutcome (builtin_print Notebook.not_found_message w).1
      (builtin_print Notebook.not_found_message w).2
      [EvExists path; EvPrint Notebook.not_found_message].
Proof.
  intros H. unfold Notebook.main. rewrite query_bind. cbv beta.
  by rewrite H, print_run.
Qed.






End EntryPoint.

(** C9, as stated, fails: behind a standard output that cannot encode the
    emoji of the warning, the print of the warning raises and the exception
    leaves the entry point. *)
Lemma warning_print_can_raise :
  os_path_exists (Services := Lab.ascii_terminal) (lit "sample.pdf") Sim.boot
  = false
  /\ res (Notebook.main (S := Lab.ascii_terminal) (lit "sample.pdf") Sim.boot)
     = Raise (LibraryError (lit "UnicodeEncodeError")).
Proof. split; by vm_compute. Qed.

(** C9, as amended. Run on a path that does not exist, the notebook entry
    point asks whether the file exists and prints the warning, and does
    nothing else: no extraction or model call is made and no record is
    printed.  It ends as that one print ends: normally when the print
    returns, with the exception of the print when it raises. *)
Theorem missing_file_only_prints_warning `{S : Services}
  (path : str) (w : World) :
  os_path_exists path w = false ->
  log (Notebook.main path w)
  = [EvExists path; EvPrint Notebook.not_found_message]
  /\ res (Notebook.main path w)
     = (builtin_print Notebook.not_found_message w).1
  /\ world (Notebook.main path w)
     = (builtin_print Notebook.not_found_message w).2
  /\ (forall w',
        builtin_print Notebook.not_found_message w = (Ok (), w') ->
        res (Notebook.main path w) = Ok ())
  /\ (forall e w',
        builtin_print Notebook.not_found_message w = (Raise e, w') ->
        res (Notebook.main path w) = Raise e).
Proof.
  intros H. rewrite (main_missing _ _ H). cbn [res world log].
  repeat split; [by intros w' ->|by intros e w' ->].
Qed.

Lemma missing_file_only_prints_warning_witness :
  log (Notebook.main (lit "sample.pdf") Sim.boot)
  = [EvExists (lit "sample.pdf"); EvPrint Notebook.not_found_message]
  /\ res (Notebook.main (lit "sample.pdf") Sim.boot) = Ok ().
Proof.
  destruct (missing_file_only_prints_warning (S := Sim.services)
              (lit "sample.pdf") Sim.boot eq_refl)
    as (Hlog & _ & _ & Hok & _).
  split; [exact Hlog|]. exact (Hok (Sim.tick Sim.boot) eq_refl).
Defined.




(** On the simulated installation: a text of 6200 characters makes seven
    chunks, five calls to the summarizer and a summary of five parts; a
    chunk size of zero is refused by [range]. *)
Example chunked_summary_sample :
  let text := replicate (6 * 1000 + 200) 97%N in
  let o := Enhanced.summarize_long_text text 1000 5 Sim.boot in
  length (blocks 1000 text) = 7%nat
  /\ length (log o) = 5%nat
  /\ res o = Ok (join space (replicate 5 (replicate 40 97%N)))
  /\ res (Enhanced.summarize_long_text text 0 5 Sim.boot) = Raise ValueError.
Proof. repeat split; by vm_compute. Qed.

(** * Further properties *)

(** ** Whitespace, margins and tokens *)

Lemma lstrip_margin s : exists pre, s = pre ++ lstrip s /\ blank pre = true.
Proof.
  induction s as [|c s (pre & IH & Hpre)]; [by exists []|]. simpl.
  destruct (is_space c) eqn:E.
  - exists (c :: pre). simpl. rewrite E, Hpre. split; [congruence|done].
  - by exists [].
Qed.

Lemma forallb_reverse {A} (P : A -> bool) (l : list A) :
  forallb P (reverse l) = forallb P l.
Proof.
  induction l as [|x l IH]; [done|].
  rewrite reverse_cons, forallb_app, IH. simpl. rewrite andb_true_r.
  apply andb_comm.
Qed.

Lemma blank_reverse s : blank (reverse s) = blank s.
Proof. apply forallb_reverse. Qed.

Lemma rstrip_margin s : exists post, s = rstrip s ++ post /\ blank post = true.
Proof.
  unfold rstrip. destruct (lstrip_margin (reverse s)) as (pre & H & Hpre).
  exists (reverse pre). split; [|by rewrite blank_reverse].
  rewrite <- reverse_app, <- H. by rewrite reverse_involutive.
Qed.

(** [strip] removes a whitespace margin at each end and nothing else. *)
Lemma strip_margins s :
  exists pre post,
    s = pre ++ strip s ++ post /\ blank pre = true /\ blank post = true.
Proof.
  destruct (lstrip_margin s) as (pre & H1 & Hpre).
  destruct (rstrip_margin (lstrip s)) as (post & H2 & Hpost).
  exists pre, post. unfold strip. by rewrite <- H2, <- H1.
Qed.

Lemma lstrip_blank s : lstrip s = [] <-> blank s = true.
Proof.
  induction s as [|c s IH]; [done|]. simpl.
  destruct (is_space c); simpl; [done|]. split; done.
Qed.

Lemma strip_blank s : strip s = [] <-> blank s = true.
Proof.
  split.
  - intros H. destruct (strip_margins s) as (pre & post & Hs & Hpre & Hpost).
    rewrite H in Hs. rewrite Hs. unfold blank in *. simpl.
    by rewrite forallb_app, Hpre, Hpost.
  - intros H. unfold strip.
    apply lstrip_blank in H. rewrite H. done.
Qed.

Lemma blank_join_newline parts :
  blank (join newline parts) = forallb blank parts.
Proof.
  induction parts as [|p parts IH]; [done|].
  destruct parts as [|q parts].
  - simpl. by rewrite andb_true_r.
  - change (join newline (p :: q :: parts))
      with (p ++ newline ++ join newline (q :: parts)).
    unfold blank at 1. rewrite !forallb_app. fold (blank p).
    fold (blank (join newline (q :: parts))). rewrite IH. done.
Qed.





Lemma starts_after_zero s : starts_after true s = 0%nat <-> blank s = true.
Proof.
  induction s as [|c s IH]; [done|]. simpl.
  destruct (is_space c); simpl; [done|]. split; [lia|done].
Qed.


Lemma count_tokens_zero s : count_tokens s = 0%nat <-> blank s = true.
Proof. rewrite count_tokens_starts. apply starts_after_zero. Qed.


Lemma trimmed_not_blank s : trimmed s -> s <> [] -> blank s = false.
Proof.
  intros [Hh _] Hne. destruct s as [|c s]; [done|].
  simpl. by rewrite (Hh c s).
Qed.

(** ** Transcripts of the extraction functions *)

Section ExtractionTranscripts.
Context `{S : Services}.

(** [mapM] over single calls: the calls are made in list order, each once,
    and stop at the first one that raises. *)
Lemma mapM_call_log {A B} (ev : A -> event)
  (f : A -> World -> result B * World) (l : list A) w :
  exists n,
    (n <= length l)%nat
    /\ log (mapM (fun x => call (fun _ => ev x) (f x)) l w) = ev <$> take n l
    /\ match res (mapM (fun x => call (fun _ => ev x) (f x)) l w) with
       | Ok ys => n = length l /\ length ys = length l
       | Raise _ => (0 < n)%nat
       end.
Proof.
  revert w. induction l as [|x l IH]; intros w.
  - exists 0%nat. by repeat split.
  - cbn [mapM]. set (c := call _ _).
    assert (Hlog : log (c w) = [ev x]) by (unfold c; by rewrite call_log).
    destruct (res (c w)) as [y|e] eqn:E.
    + rewrite (bind_ok _ _ _ _ E). cbn [res log]. rewrite Hlog.
      destruct (IH (world (c w))) as (n & Hn & Hl & Hr).
      exists (Datatypes.S n). split; [simpl; lia|].
      set (rest := mapM _ l) in *.
      destruct (res (rest (world (c w)))) as [ys|e'] eqn:E'.
      * rewrite (bind_ok _ _ _ _ E'). cbn [res log mret M_ret ret].
        rewrite app_nil_r, Hl. split; [done|]. simpl. lia.
      * rewrite (bind_raise _ _ _ _ E'). cbn [res log].
        rewrite Hl. split; [done|lia].
    + rewrite (bind_raise _ _ _ _ E). cbn [res log]. rewrite Hlog.
      exists 1%nat. split; [simpl; lia|]. split; [done|lia].
Qed.

End ExtractionTranscripts.

(** ** Dispatch on the extension *)

Section DispatchCases.
Context `{S : Services}.

(** The label and the text that the shared dispatch can return together. *)
Lemma extract_uploaded_cases name path w text label :
  res (StreamlitApp.extract_uploaded name path w) = Ok (text, label) ->
  let ext := str_lower (Path_suffix name) in
  (ext = lit ".pdf" /\ label = PDF /\ text <> [])
  \/ (ext = lit ".pdf" /\ label = Scanned_PDF)
  \/ (ext = lit ".docx" /\ label = DOCX)
  \/ (ext = lit ".txt" /\ label = TXT)
  \/ (ext <> lit ".pdf" /\ ext <> lit ".docx" /\ ext <> lit ".txt"
      /\ label = Unknown /\ text = []).
Proof.
  intros H ext. subst ext.
  destruct (decide (str_lower (Path_suffix name) = lit ".pdf")) as [Hp|Hp].
  { rewrite (extract_uploaded_pdf _ _ Hp) in H.
    apply bind_res_ok in H as (t & Hd & H).
    destruct t as [|c t]; cbn [truthy negb] in H.
    - apply bind_res_ok in H as (t' & _ & H).
      rewrite mret_run in H. injection H as _ <-. auto.
    - rewrite mret_run in H. injection H as <- <-. left. by repeat split. }
  destruct (decide (str_lower (Path_suffix name) = lit ".docx")) as [Hd|Hd].
  { rewrite (extract_uploaded_docx _ _ Hd) in H.
    apply bind_res_ok in H as (t & _ & H).
    rewrite mret_run in H. injection H as _ <-. auto. }
  destruct (decide (str_lower (Path_suffix name) = lit ".txt")) as [Ht|Ht].
  { rewrite (extract_uploaded_txt _ _ Ht) in H.
    apply bind_res_ok in H as (t & _ & H).
    rewrite mret_run in H. injection H as _ <-. auto 6. }
  rewrite (extract_uploaded_other _ _ Hp Hd Ht), mret_run in H.
  injection H as <- <-. do 4 right. by repeat split.
Qed.

End DispatchCases.

(** X1. The label returned by the dispatch is one of the five labels and goes
    with the extension: [PDF] and [Scanned PDF] only for [.pdf], [DOCX] only
    for [.docx], [TXT] only for [.txt], [Unknown] only for any other
    extension.  A text labelled [PDF] is never empty and a text labelled
    [Unknown] always is. *)
Theorem label_follows_extension `{S : Services}
  (name path : str) (run : M (str * str)) (w : World) (text label : str) :
  dispatch name path run ->
  res (run w) = Ok (text, label) ->
  let ext := str_lower (Path_suffix name) in
  (ext = lit ".pdf" /\ label = PDF /\ text <> [])
  \/ (ext = lit ".pdf" /\ label = Scanned_PDF)
  \/ (ext = lit ".docx" /\ label = DOCX)
  \/ (ext = lit ".txt" /\ label = TXT)
  \/ (ext <> lit ".pdf" /\ ext <> lit ".docx" /\ ext <> lit ".txt"
      /\ label = Unknown /\ text = []).
Proof.
  intros Hrun. rewrite (dispatch_shared _ _ _ Hrun).
  apply extract_uploaded_cases.
Qed.

Lemma label_follows_extension_witness :
  Sim.lower (Sim.suffix (lit "memo.docx")) = lit ".docx"
  /\ res (Enhanced.extract_uploaded (S := Sim.services) (lit "memo.docx")
            (lit "memo.docx") Sim.boot)
     = Ok (lit "Memo" ++ newline ++ lit "Buy milk.", DOCX).
Proof.
  assert (H : res (Enhanced.extract_uploaded (S := Sim.services)
                     (lit "memo.docx") (lit "memo.docx") Sim.boot)
              = Ok (lit "Memo" ++ newline ++ lit "Buy milk.", DOCX))
    by reflexivity.
  split; [|exact H].
  destruct (label_follows_extension (S := Sim.services) (lit "memo.docx")
              (lit "memo.docx") _ Sim.boot _ _ (dispatch_enhanced _ _) H)
    as [(_ & E & _)|[(_ & E)|[(E & _)|[(_ & E)|(_ & _ & _ & E & _)]]]];
    first [exact E | by vm_compute in E].
Defined.

(** X2. For an extension other than [.pdf], [.docx] and [.txt] the dispatch
    calls no service at all: it returns the empty text labelled [Unknown] and
    leaves the world as it was.  The notebook entry point, run on such a file
    that exists, makes one call besides the existence test, the print of the
    no-text message, and ends as that print ends. *)
Theorem unsupported_extension_reads_nothing `{S : Services}
  (name path : str) (run : M (str * str)) (w : World) :
  dispatch name path run ->
  str_lower (Path_suffix name) <> lit ".pdf" ->
  str_lower (Path_suffix name) <> lit ".docx" ->
  str_lower (Path_suffix name) <> lit ".txt" ->
  run w = mkOutcome (Ok ([], Unknown)) w []
  /\ (os_path_exists name w = true ->
      Notebook.main name w
      = mkOutcome (builtin_print Notebook.no_text_message w).1
          (builtin_print Notebook.no_text_message w).2
          [EvExists name; EvPrint Notebook.no_text_message]).
Proof.
  intros Hrun Hp Hd Ht. rewrite (dispatch_shared _ _ _ Hrun).
  rewrite (extract_uploaded_other _ _ Hp Hd Ht). split; [done|].
  intros Hex. unfold Notebook.main. rewrite query_bind. cbv beta.
  rewrite Hex, process_file_dispatch, (extract_uploaded_other _ _ Hp Hd Ht).
  assert (Hr : res ((mret ([], Unknown) : M (str * str)) w)
               = Ok ([], Unknown)) by done.
  rewrite (bind_ok _ _ _ _ Hr).
  cbn [truthy res world log mret M_ret ret app]. by rewrite print_run.
Qed.

Lemma unsupported_extension_reads_nothing_witness :
  Notebook.main (S := Lab.services) (lit "table.csv") Lab.boot
  = mkOutcome (S := Lab.services) (Ok ()) (Sim.tick Lab.boot)
      [EvExists (lit "table.csv"); EvPrint Notebook.no_text_message]
  /\ res (Notebook.main (S := Lab.ascii_terminal) (lit "table.csv") Lab.boot)
     = Raise (LibraryError (lit "UnicodeEncodeError")).
Proof.
  split.
  - apply (unsupported_extension_reads_nothing (S := Lab.services)
             (lit "table.csv") (lit "table.csv") _ Lab.boot
             (dispatch_notebook _));
      by vm_compute.
  - destruct (unsupported_extension_reads_nothing (S := Lab.ascii_terminal)
                (lit "table.csv") (lit "table.csv") _ Lab.boot
                (dispatch_notebook _)) as [_ H]; [by vm_compute..|].
    by rewrite (H eq_refl).
Defined.

(** ** The extraction functions, call by call *)

Section TwoStages.
Context `{S : Services}.

(** The shape shared by the PDF and the OCR extraction: one call that opens
    the document, then one call per page. *)
Lemma two_stage_run {D A} (ev0 : event) (f0 : World -> result D * World)
  (h : D -> list A) (ev : A -> event) (g : A -> World -> result str * World)
  (w : World) :
  let m := call (fun _ => ev0) f0 ≫= fun d =>
           mapM (fun x => call (fun _ => ev x) (g x)) (h d) ≫= fun texts =>
           mret (strip (join newline texts)) in
  match (f0 w).1 with
  | Ok d =>
      exists n,
        (n <= length (h d))%nat
        /\ log (m w) = ev0 :: (ev <$> take n (h d))
        /\ match res (m w) with
           | Ok t =>
               n = length (h d)
               /\ exists texts,
                    res (mapM (fun x => call (fun _ => ev x) (g x)) (h d)
                           (f0 w).2) = Ok texts
                    /\ t = strip (join newline texts)
           | Raise _ => (0 < n)%nat
           end
  | Raise e => m w = mkOutcome (Raise e) (f0 w).2 [ev0]
  end.
Proof.
  intros m. subst m. set (c := call _ f0).
  assert (Hres : res (c w) = (f0 w).1) by (unfold c; by rewrite call_res).
  assert (Hlog : log (c w) = [ev0]) by (unfold c; by rewrite call_log).
  assert (Hw : world (c w) = (f0 w).2) by (unfold c; by rewrite call_world).
  destruct (f0 w).1 as [d|e] eqn:E.
  - rewrite (bind_ok _ _ _ _ Hres). cbn [res log]. rewrite Hlog, Hw.
    destruct (mapM_call_log ev g (h d) (f0 w).2) as (n & Hn & Hl & Hr).
    exists n. split; [done|].
    set (pages := mapM _ (h d)) in *.
    destruct (res (pages (f0 w).2)) as [texts|e] eqn:E'.
    + rewrite (bind_ok _ _ _ _ E'). cbn [res log mret M_ret ret].
      rewrite app_nil_r, Hl. split; [done|]. split; [apply Hr|]. eauto.
    + rewrite (bind_raise _ _ _ _ E'). cbn [res log]. by rewrite Hl.
  - rewrite (bind_raise _ _ _ _ Hres). by rewrite Hlog, Hw.
Qed.

Lemma existsb_fmap_false {A} (P : event -> bool) (ev : A -> event) l :
  (forall x, P (ev x) = false) -> existsb P (ev <$> l) = false.
Proof.
  intros H. induction l as [|x l IH]; [done|].
  rewrite fmap_cons. cbn [existsb]. by rewrite H, IH.
Qed.

Lemma two_stage_clean {D A} (P : event -> bool) (ev0 : event)
  (f0 : World -> result D * World) (h : D -> list A) (ev : A -> event)
  (g : A -> World -> result str * World) (w : World) :
  P ev0 = false -> (forall x, P (ev x) = false) ->
  existsb P
    (log ((call (fun _ => ev0) f0 ≫= fun d =>
           mapM (fun x => call (fun _ => ev x) (g x)) (h d) ≫= fun texts =>
           mret (strip (join newline texts))) w)) = false.
Proof.
  intros H0 H. pose proof (two_stage_run ev0 f0 h ev g w) as Hrun.
  cbv zeta in Hrun. destruct (f0 w).1 as [d|e].
  - destruct Hrun as (n & _ & -> & _). cbn [existsb].
    by rewrite H0, existsb_fmap_false.
  - rewrite Hrun. simpl. by rewrite H0.
Qed.

(** The dispatch logs extraction calls only. *)
Lemma extract_uploaded_clean (P : event -> bool) name path w :
  (forall ev, is_extraction_call ev = true -> P ev = false) ->
  existsb P (log (StreamlitApp.extract_uploaded name path w)) = false.
Proof.
  intros HP.
  assert (Hpdf : forall w', existsb P
            (log (StreamlitApp.extract_text_from_pdf path w')) = false).
  { intros w'. apply two_stage_clean; [by apply HP|]. intros x. by apply HP. }
  assert (Hocr : forall w', existsb P
            (log (StreamlitApp.extract_text_via_ocr path w')) = false).
  { intros w'. apply two_stage_clean; [by apply HP|]. intros x. by apply HP. }
  destruct (decide (str_lower (Path_suffix name) = lit ".pdf")) as [Hp|Hp].
  { rewrite (extract_uploaded_pdf _ _ Hp).
    destruct (res (StreamlitApp.extract_text_from_pdf path w))
      as [t|e] eqn:E.
    - rewrite (bind_ok _ _ _ _ E). cbn [log]. rewrite existsb_app, Hpdf.
      destruct t as [|c t]; cbn [truthy negb orb]; [|done].
      set (w1 := world _).
      destruct (res (StreamlitApp.extract_text_via_ocr path w1))
        as [t'|e'] eqn:E'.
      + rewrite (bind_ok _ _ _ _ E'). cbn [log mret M_ret ret].
        by rewrite app_nil_r, Hocr.
      + rewrite (bind_raise _ _ _ _ E'). cbn [log]. apply Hocr.
    - rewrite (bind_raise _ _ _ _ E). cbn [log]. apply Hpdf. }
  destruct (decide (str_lower (Path_suffix name) = lit ".docx")) as [Hd|Hd].
  { rewrite (extract_uploaded_docx _ _ Hd).
    unfold StreamlitApp.extract_text_from_docx. set (c := call _ _).
    assert (Hc : existsb P (log (c w)) = false).
    { unfold c. rewrite call_log. simpl. by rewrite HP. }
    destruct (res (c w)) as [doc|e] eqn:E.
    - assert (E2 : res ((c ≫= fun doc =>
                           mret (strip (join newline
                                   (Paragraph_text <$> paragraphs doc)))) w)
                   = Ok (strip (join newline
                                  (Paragraph_text <$> paragraphs doc))))
        by (by rewrite (bind_ok _ _ _ _ E)).
      rewrite (bind_ok _ _ _ _ E2). cbn [log mret M_ret ret].
      rewrite (bind_ok _ _ _ _ E). cbn [log mret M_ret ret].
      by rewrite !app_nil_r.
    - assert (E2 : res ((c ≫= fun doc =>
                           mret (strip (join newline
                                   (Paragraph_text <$> paragraphs doc)))) w)
                   = Raise e)
        by (by rewrite (bind_raise _ _ _ _ E)).
      rewrite (bind_raise _ _ _ _ E2). cbn [log].
      by rewrite (bind_raise _ _ _ _ E). }
  destruct (decide (str_lower (Path_suffix name) = lit ".txt")) as [Ht|Ht].
  { rewrite (extract_uploaded_txt _ _ Ht). set (c := call _ _).
    assert (Hc : existsb P (log (c w)) = false).
    { unfold c. rewrite call_log. simpl. by rewrite HP. }
    destruct (res (c w)) as [t|e] eqn:E.
    - rewrite (bind_ok _ _ _ _ E). cbn [log mret M_ret ret].
      by rewrite app_nil_r.
    - by rewrite (bind_raise _ _ _ _ E). }
  by rewrite (extract_uploaded_other _ _ Hp Hd Ht).
Qed.

End TwoStages.

(** X3. Once the PDF is open, [extract_text_from_pdf] asks for the text of
    its pages in page order, each page at most once and with no gap: the
    transcript is the opening call followed by the calls for the first [n]
    pages, and [n] is the number of pages whenever a text is returned.  The
    OCR extraction treats the page images in the same way. *)
Theorem pages_processed_in_order `{S : Services} (path : str) (w : World) :
  (forall doc w1,
     fitz_open path w = (Ok doc, w1) ->
     exists n,
       (n <= length (pdf_pages doc))%nat
       /\ log (Notebook.extract_text_from_pdf path w)
          = EvFitzOpen path :: (EvGetText <$> take n (pdf_pages doc))
       /\ (forall text,
             res (Notebook.extract_text_from_pdf path w) = Ok text ->
             n = length (pdf_pages doc)))
  /\ (forall images w1,
        convert_from_path path w = (Ok images, w1) ->
        exists n,
          (n <= length images)%nat
          /\ log (Notebook.extract_text_via_ocr path w)
             = EvConvertFromPath path :: (EvImageToString <$> take n images)
          /\ (forall text,
                res (Notebook.extract_text_via_ocr path w) = Ok text ->
                n = length images)).
Proof.
  split.
  - intros doc w1 Hopen.
    pose proof (two_stage_run (EvFitzOpen path) (fitz_open path) pdf_pages
                  EvGetText Page_get_text w) as H.
    cbv zeta in H. rewrite Hopen in H. cbn [fst snd] in H.
    destruct H as (n & Hn & Hlog & Hres). exists n.
    split; [done|]. split; [exact Hlog|].
    intros text Ht. unfold Notebook.extract_text_from_pdf in Ht.
    rewrite Ht in Hres. apply Hres.
  - intros images w1 Hopen.
    pose proof (two_stage_run (EvConvertFromPath path)
                  (convert_from_path path) (fun images => images)
                  EvImageToString image_to_string w) as H.
    cbv zeta in H. rewrite Hopen in H. cbn [fst snd] in H.
    destruct H as (n & Hn & Hlog & Hres). exists n.
    split; [done|]. split; [exact Hlog|].
    intros text Ht. unfold Notebook.extract_text_via_ocr in Ht.
    rewrite Ht in Hres. apply Hres.
Qed.

Lemma pages_processed_in_order_witness :
  log (Notebook.extract_text_via_ocr (S := Sim.services) (lit "scan.PDF")
         Sim.boot)
  = [EvConvertFromPath (lit "scan.PDF");
     EvImageToString (lit "Scanned page one.");
     EvImageToString (lit "page two ")].
Proof.
  destruct (pages_processed_in_order (S := Sim.services) (lit "scan.PDF")
              Sim.boot) as [_ H].
  destruct (H [lit "Scanned page one."; lit "page two "] (Sim.tick Sim.boot)
              eq_refl) as (n & _ & Hlog & Hn).
  rewrite Hlog, (Hn (lit "Scanned page one." ++ newline ++ lit "page two"));
    reflexivity.
Defined.

(** X4. Whether a PDF goes to OCR is decided by its page texts alone: when
    every page text is blank (whitespace only, or there is no page) the
    direct extraction is empty and the dispatch renders the file for OCR;
    when some page text is not blank the dispatch returns the stripped page
    texts, joined by newlines, labelled [PDF]. *)
Theorem blank_pages_go_to_ocr `{S : Services}
  (name path : str) (run : M (str * str)) (w : World)
  (doc : PdfDocument) (w1 : World) (texts : list str) :
  dispatch name path run ->
  str_lower (Path_suffix name) = lit ".pdf" ->
  fitz_open path w = (Ok doc, w1) ->
  res (mapM (fun page => call (fun _ => EvGetText page) (Page_get_text page))
         (pdf_pages doc) w1) = Ok texts ->
  res (Notebook.extract_text_from_pdf path w) = Ok (strip (join newline texts))
  /\ (forallb blank texts = true ->
      strip (join newline texts) = []
      /\ EvConvertFromPath path ∈ log (run w))
  /\ (forallb blank texts = false ->
      res (run w) = Ok (strip (join newline texts), PDF)).
Proof.
  intros Hrun Hext Hopen Htexts.
  assert (Hd : res (StreamlitApp.extract_text_from_pdf path w)
               = Ok (strip (join newline texts))).
  { unfold StreamlitApp.extract_text_from_pdf. set (c := call _ _).
    assert (Hc : res (c w) = Ok doc) by (unfold c; by rewrite call_res, Hopen).
    assert (Hw : world (c w) = w1) by (unfold c; by rewrite call_world, Hopen).
    rewrite (bind_ok _ _ _ _ Hc). cbn [res]. rewrite Hw.
    by rewrite (bind_ok _ _ _ _ Htexts). }
  split; [exact Hd|].
  rewrite (dispatch_shared _ _ _ Hrun).
  destruct (pdf_fallback_shared name path w Hext _ Hd) as [Hempty Hfull].
  split.
  - intros Hb.
    assert (Hs : strip (join newline texts) = [])
      by (by rewrite strip_blank, blank_join_newline).
    split; [done|]. by apply Hempty.
  - intros Hb. apply Hfull. intros Hs.
    rewrite strip_blank, blank_join_newline in Hs. congruence.
Qed.

Lemma blank_pages_go_to_ocr_witness :
  EvConvertFromPath (lit "blank.pdf")
  ∈ log (Notebook.process_file (S := Sim.services) (lit "blank.pdf") Sim.boot).
Proof.
  apply (blank_pages_go_to_ocr (S := Sim.services) (lit "blank.pdf")
           (lit "blank.pdf") _ Sim.boot [[]; []] (Sim.tick Sim.boot) [[]; []]
           (dispatch_notebook _) eq_refl eq_refl eq_refl).
  reflexivity.
Defined.

(** X5. For a [.docx] file that opens, the dispatch makes that one call and
    returns, labelled [DOCX], the paragraph texts joined by newlines in
    document order, less a margin of whitespace at each end: nothing else is
    removed and nothing is added. *)
Theorem docx_text_is_joined_paragraphs `{S : Services}
  (name path : str) (run : M (str * str)) (w : World)
  (doc : DocxDocument) (w1 : World) :
  dispatch name path run ->
  str_lower (Path_suffix name) = lit ".docx" ->
  docx_Document path w = (Ok doc, w1) ->
  exists text before after,
    run w = mkOutcome (Ok (text, DOCX)) w1 [EvDocxDocument path]
    /\ join newline (Paragraph_text <$> paragraphs doc)
       = before ++ text ++ after
    /\ blank before = true /\ blank after = true /\ trimmed text.
Proof.
  intros Hrun Hext Hopen. rewrite (dispatch_shared _ _ _ Hrun).
  rewrite (extract_uploaded_docx _ _ Hext).
  set (joined := join newline (Paragraph_text <$> paragraphs doc)).
  destruct (strip_margins joined) as (before & after & Hj & Hb & Ha).
  exists (strip joined), before, after.
  split; [|split; [exact Hj|]; split; [done|]; split; [done|]];
    [|apply strip_trimmed].
  unfold StreamlitApp.extract_text_from_docx. set (c := call _ _).
  assert (Hc : res (c w) = Ok doc) by (unfold c; by rewrite call_res, Hopen).
  assert (E2 : res ((c ≫= fun doc =>
                       mret (strip (join newline
                               (Paragraph_text <$> paragraphs doc)))) w)
               = Ok (strip joined))
    by (by rewrite (bind_ok _ _ _ _ Hc)).
  rewrite (bind_ok _ _ _ _ E2). cbn [res world log mret M_ret ret].
  rewrite (bind_ok _ _ _ _ Hc). cbn [res world log mret M_ret ret].
  unfold c. by rewrite call_world, call_log, Hopen.
Qed.

Lemma docx_text_is_joined_paragraphs_witness :
  exists text before after,
    res (StreamlitApp.extract_uploaded (S := Sim.services) (lit "Memo.DOCX")
           (lit "memo.docx") Sim.boot) = Ok (text, DOCX)
    /\ lit " Memo" ++ newline ++ lit "Buy milk. " = before ++ text ++ after.
Proof.
  destruct (docx_text_is_joined_paragraphs (S := Sim.services)
              (lit "Memo.DOCX") (lit "memo.docx") _ Sim.boot
              [lit " Memo"; lit "Buy milk. "] (Sim.tick Sim.boot)
              (dispatch_app _ _) eq_refl eq_refl)
    as (text & before & after & Hrun & Hj & _).
  exists text, before, after. by rewrite Hrun.
Defined.

(** X6. Text extraction never calls a model and never prints: the transcript
    of the dispatch holds extraction calls only, whatever the extension and
    whatever the services answer. *)
Theorem extraction_calls_no_model `{S : Services}
  (name path : str) (run : M (str * str)) (w : World) :
  dispatch name path run ->
  existsb is_model_call (log (run w)) = false
  /\ existsb is_print (log (run w)) = false
  /\ forallb is_extraction_call (log (run w)) = true.
Proof.
  intros Hrun. rewrite (dispatch_shared _ _ _ Hrun).
  split; [|split].
  - apply extract_uploaded_clean. by intros [].
  - apply extract_uploaded_clean. by intros [].
  - assert (Hc : existsb (fun ev => negb (is_extraction_call ev))
                (log (StreamlitApp.extract_uploaded name path w)) = false)
      by (apply extract_uploaded_clean; by intros ev ->).
    revert Hc. generalize (log (StreamlitApp.extract_uploaded name path w)).
    intros l. induction l as [|ev l IH]; intros Hc; [done|].
    simpl in *. apply orb_false_iff in Hc as [Hev Hl].
    apply negb_false_iff in Hev. by rewrite Hev, IH.
Qed.

Lemma extraction_calls_no_model_witness :
  existsb is_model_call
    (log (Notebook.process_file (S := Sim.services) (lit "scan.PDF") Sim.boot))
  = false.
Proof.
  exact (proj1 (extraction_calls_no_model (S := Sim.services) (lit "scan.PDF")
                  (lit "scan.PDF") _ Sim.boot (dispatch_notebook _))).
Defined.

(** ** The notebook entry point, case by case *)

Section EntryPointCases.
Context `{S : Services}.


Lemma main_no_text path w label :
  os_path_exists path w = true ->
  res (Notebook.process_file path w) = Ok ([], label) ->
  let w1 := world (Notebook.process_file path w) in
  Notebook.main path w
  = mkOutcome (builtin_print Notebook.no_text_message w1).1
      (builtin_print Notebook.no_text_message w1).2
      (EvExists path :: log (Notebook.process_file path w)
       ++ [EvPrint Notebook.no_text_message]).
Proof.
  intros Hex Hpf w1. unfold Notebook.main. rewrite query_bind. cbv beta.
  rewrite Hex. rewrite (bind_ok _ _ _ _ Hpf). cbn [truthy]. fold w1.
  by rewrite print_run.
Qed.




End EntryPointCases.

(** X7. When the file exists and the extraction returns the empty text (a
    PDF that stays empty after OCR, an empty document, an unsupported
    extension), the notebook entry point makes one more call after the
    extraction calls, the print of the no-text message, and ends as that
    print ends; no model is called and no record is printed. *)
Theorem empty_text_stops_before_models `{S : Services}
  (path : str) (w : World) (label : str) :
  os_path_exists path w = true ->
  res (Notebook.process_file path w) = Ok ([], label) ->
  Notebook.main path w
  = mkOutcome
      (builtin_print Notebook.no_text_message
         (world (Notebook.process_file path w))).1
      (builtin_print Notebook.no_text_message
         (world (Notebook.process_file path w))).2
      (EvExists path :: log (Notebook.process_file path w)
       ++ [EvPrint Notebook.no_text_message])
  /\ existsb is_model_call (log (Notebook.main path w)) = false.
Proof.
  intros Hex Hpf. rewrite (main_no_text _ _ _ Hex Hpf). split; [done|].
  cbn [log existsb is_model_call orb]. rewrite existsb_app.
  rewrite process_file_dispatch, extract_uploaded_clean; [done|].
  by intros [].
Qed.

Lemma empty_text_stops_before_models_witness :
  log (Notebook.main (S := Sim.services) (lit "blank.pdf") Sim.boot)
  = [EvExists (lit "blank.pdf"); EvFitzOpen (lit "blank.pdf");
     EvGetText []; EvGetText []; EvConvertFromPath (lit "blank.pdf");
     EvImageToString []; EvImageToString (lit "  ");
     EvPrint Notebook.no_text_message].
Proof.
  rewrite (proj1 (empty_text_stops_before_models (S := Sim.services)
                    (lit "blank.pdf") Sim.boot Scanned_PDF eq_refl eq_refl)).
  reflexivity.
Defined.





(** ** The record, field by field *)

Lemma before_first_nil c s :
  before_first c s = [] <-> s = [] \/ exists rest, s = c :: rest.
Proof.
  destruct s as [|x s]; simpl; [by split; auto|].
  destruct (x =? c)%N eqn:E.
  - apply N.eqb_eq in E as ->. split; [eauto|done].
  - apply N.eqb_neq in E. split; [done|].
    intros [|[rest [= -> _]]]; done.
Qed.

Lemma before_first_length c s : (length (before_first c s) <= length s)%nat.
Proof.
  induction s as [|x s IH]; simpl; [lia|].
  destruct (x =? c)%N; simpl; lia.
Qed.

Lemma extract_uploaded_trimmed `{S : Services} name path w text label :
  str_lower (Path_suffix name) = lit ".pdf"
  \/ str_lower (Path_suffix name) = lit ".docx" ->
  res (StreamlitApp.extract_uploaded name path w) = Ok (text, label) ->
  trimmed text.
Proof.
  intros [Hext|Hext] H.
  - rewrite (extract_uploaded_pdf _ _ Hext) in H.
    apply bind_res_ok in H as (t & Hd & H).
    destruct t as [|c t]; cbn [truthy negb] in H.
    + apply bind_res_ok in H as (t' & Hocr & H).
      rewrite mret_run in H. injection H as <- _.
      by apply ocr_extraction_trimmed in Hocr.
    + rewrite mret_run in H. injection H as <- _.
      by apply direct_extraction_trimmed in Hd.
  - rewrite (extract_uploaded_docx _ _ Hext) in H.
    apply bind_res_ok in H as (t & Hd & H).
    rewrite mret_run in H. injection H as <- _.
    by apply docx_extraction_trimmed in Hd.
Qed.

Lemma assembler_word_count `{S : Services} gm text doc_type w m :
  assembler gm ->
  res (gm text doc_type w) = Ok m ->
  word_count m = Z.of_nat (count_tokens text).
Proof.
  intros Hgm Hm.
  destruct (assembler_record _ _ _ _ _ Hgm Hm) as (s & kws & ->).
  cbn [word_count]. unfold len. by rewrite split_ws_count.
Qed.



(** X11. A non-empty text extracted from a [.pdf] or [.docx] file has been
    stripped, so it holds at least one word: every record made from it has a
    word count of at least one.  (A [.txt] file of whitespace only is passed
    on as it is and gives a word count of zero.) *)
Theorem stripped_text_has_a_word `{S : Services}
  (name path : str) (run : M (str * str)) (w w' : World) (text label : str)
  (gm : str -> str -> M MetadataRecord) (m : MetadataRecord) :
  dispatch name path run ->
  str_lower (Path_suffix name) = lit ".pdf"
  \/ str_lower (Path_suffix name) = lit ".docx" ->
  res (run w) = Ok (text, label) ->
  text <> [] ->
  assembler gm ->
  res (gm text label w') = Ok m ->
  1 <= word_count m.
Proof.
  intros Hrun Hext Hres Hne Hgm Hm.
  rewrite (dispatch_shared _ _ _ Hrun) in Hres.
  pose proof (extract_uploaded_trimmed _ _ _ _ _ Hext Hres) as Ht.
  pose proof (trimmed_not_blank _ Ht Hne) as Hb.
  rewrite (assembler_word_count _ _ _ _ _ Hgm Hm).
  destruct (count_tokens text) as [|n] eqn:E; [|lia].
  apply count_tokens_zero in E. congruence.
Qed.

Lemma stripped_text_has_a_word_witness :
  exists m,
    res (Enhanced.generate_metadata (S := Sim.services)
           (lit "Memo" ++ newline ++ lit "Buy milk.") DOCX Sim.boot) = Ok m
    /\ 1 <= word_count m.
Proof.
  destruct (res (Enhanced.generate_metadata (S := Sim.services)
                   (lit "Memo" ++ newline ++ lit "Buy milk.") DOCX Sim.boot))
    as [m|e] eqn:E; [|by vm_compute in E].
  exists m. split; [done|].
  apply (stripped_text_has_a_word (S := Sim.services) (lit "memo.docx")
           (lit "memo.docx") (Notebook.process_file (lit "memo.docx"))
           Sim.boot Sim.boot (lit "Memo" ++ newline ++ lit "Buy milk.") DOCX
           Enhanced.generate_metadata m (dispatch_notebook _)
           (or_intror eq_refl) eq_refl ltac:(done) assembler_chunked E).
Defined.

(** X12. The title of a produced record is empty exactly when its summary is
    empty or starts with a period, and it is never longer than the summary. *)
Theorem title_empty_only_for_leading_period `{S : Services}
  (gm : str -> str -> M MetadataRecord) (text doc_type : str) (w : World)
  (m : MetadataRecord) :
  assembler gm ->
  res (gm text doc_type w) = Ok m ->
  (title m = [] <-> summary m = [] \/ exists rest, summary m = period :: rest)
  /\ len (title m) <= len (summary m).
Proof.
  intros Hgm Hm.
  destruct (assembler_record _ _ _ _ _ Hgm Hm) as (s & kws & ->).
  cbn [title summary]. split; [apply before_first_nil|].
  unfold len. pose proof (before_first_length period s). lia.
Qed.

Lemma title_empty_only_for_leading_period_witness :
  exists m,
    res (StreamlitApp.generate_metadata (S := Sim.services)
           (lit ". Dots first.") TXT Sim.boot) = Ok m
    /\ title m = [].
Proof.
  destruct (res (StreamlitApp.generate_metadata (S := Sim.services)
                   (lit ". Dots first.") TXT Sim.boot))
    as [m|e] eqn:E; [|by vm_compute in E].
  exists m. split; [done|].
  apply (title_empty_only_for_leading_period (S := Sim.services)
           StreamlitApp.generate_metadata (lit ". Dots first.") TXT Sim.boot m
           (assembler_truncating _ truncating_app) E).
  right. exists (lit " Dots first."). vm_compute in E. by injection E as <-.
Defined.

(** X13. The truncating [generate_metadata] returns a record whenever the
    reply of the summarizer carries a summary and the keyword extractor
    returns: computing the title cannot fail.  The summary is the one of the
    first entry of the reply, and the keywords are the phrases of the keyword
    reply, all of them and in the order of the reply (the scripts ask for
    eight phrases but do not cut the list themselves). *)
Theorem record_built_from_replies `{S : Services}
  (gm : str -> str -> M MetadataRecord) (text doc_type : str) (w : World)
  (reply : result (list (gmap str str))) (w1 : World) (s : str)
  (kws : list (str * Score)) (w2 : World) :
  truncating gm ->
  summarizer_call (short_text text) 130 30 false w = (reply, w1) ->
  reply_summary reply = Some s ->
  kw_extract_keywords text (1, 2) (lit "english") 8 w1 = (Ok kws, w2) ->
  gm text doc_type w
  = mkOutcome
      (Ok {| title := before_first period s;
             summary := s;
             keywords := fst <$> kws;
             document_type := doc_type;
             word_count := Z.of_nat (count_tokens text) |})
      w2
      [EvSummarize (short_text text) 130 30 false reply;
       EvKeywords text (1, 2) (lit "english") 8 (Ok kws)].
Proof.
  intros Hgm Hsum Hs Hkw.
  rewrite (truncating_shared _ Hgm), generate_metadata_run. cbv zeta.
  rewrite Hsum. cbn [fst snd]. rewrite Hs, Hkw. cbn [fst snd].
  unfold len. by rewrite split_ws_count.
Qed.

Lemma record_built_from_replies_witness :
  res (Notebook.generate_metadata (S := Lab.services) Sim.fox PDF Lab.boot)
  = Ok {| title := lit "The quick brown fox";
          summary := Sim.fox;
          keywords := [lit "The"; lit "quick"; lit "brown"; lit "fox.";
                       lit "It"; lit "jumps."];
          document_type := PDF;
          word_count := 6 |}.
Proof.
  by rewrite (record_built_from_replies (S := Lab.services)
                Notebook.generate_metadata Sim.fox PDF Lab.boot _ _ Sim.fox
                _ _ truncating_notebook eq_refl eq_refl eq_refl).
Defined.

(** X14. A malformed reply of the summarizer makes the truncating
    [generate_metadata] raise, with the keyword extractor never called: an
    empty reply gives [IndexError], and a reply whose first entry lacks the
    key [summary_text] gives [KeyError] for that key. *)
Theorem malformed_summary_reply_raises `{S : Services}
  (gm : str -> str -> M MetadataRecord) (text doc_type : str) (w w1 : World) :
  truncating gm ->
  (summarizer_call (short_text text) 130 30 false w = (Ok [], w1) ->
   gm text doc_type w
   = mkOutcome (Raise IndexError) w1
       [EvSummarize (short_text text) 130 30 false (Ok [])])
  /\ (forall first rest,
        summarizer_call (short_text text) 130 30 false w
        = (Ok (first :: rest), w1) ->
        first !! lit "summary_text" = None ->
        gm text doc_type w
        = mkOutcome (Raise (KeyError (lit "summary_text"))) w1
            [EvSummarize (short_text text) 130 30 false (Ok (first :: rest))]).
Proof.
  intros Hgm. rewrite (truncating_shared _ Hgm), generate_metadata_run.
  cbv zeta. split.
  - intros Hsum. by rewrite Hsum.
  - intros first rest Hsum Hkey. rewrite Hsum. cbn -[lit]. by rewrite Hkey.
Qed.

Lemma malformed_summary_reply_raises_witness :
  res (Notebook.generate_metadata (S := Lab.services) (lit "Empty reply") TXT
         Lab.boot) = Raise IndexError
  /\ res (Notebook.generate_metadata (S := Lab.services) (lit "Keyless reply")
            TXT Lab.boot) = Raise (KeyError (lit "summary_text")).
Proof.
  split.
  - destruct (malformed_summary_reply_raises (S := Lab.services)
                Notebook.generate_metadata (lit "Empty reply") TXT Lab.boot
                (Sim.tick Lab.boot) truncating_notebook) as [H _].
    by rewrite (H eq_refl).
  - destruct (malformed_summary_reply_raises (S := Lab.services)
                Notebook.generate_metadata (lit "Keyless reply") TXT Lab.boot
                (Sim.tick Lab.boot) truncating_notebook) as [_ H].
    by rewrite (H _ _ eq_refl eq_refl).
Defined.

(** ** Chunking with any parameters *)

Section ChunkParameters.
Context `{S : Services}.

Lemma mret_bind {A B} (a : A) (k : A -> M B) w : (mret a ≫= k) w = k a w.
Proof.
  unfold mbind, M_bind, bind, mret, M_ret, ret. cbn.
  by destruct (k a w).
Qed.

Lemma summarize_long_text_blocks (text : str) (n k : Z) w :
  0 < n ->
  Enhanced.summarize_long_text text n k w
  = (Enhanced.summarize_chunks (upto (blocks (Z.to_nat n) text) k) []
       ≫= fun summaries => mret (join space summaries)) w.
Proof.
  intros Hn. unfold Enhanced.summarize_long_text.
  by rewrite (chunks_of_blocks _ _ Hn), mret_bind.
Qed.

(** With no chunk to summarize the result is the empty summary and no call
    is made. *)
Lemma summarize_nothing w :
  (Enhanced.summarize_chunks [] [] ≫= fun summaries =>
     mret (join space summaries)) w
  = mkOutcome (Ok []) w [].
Proof. reflexivity. Qed.

Lemma range_backwards (stop step : Z) :
  0 <= stop -> step < 0 -> range 0 stop step = [].
Proof.
  intros Hstop Hstep. unfold range.
  destruct (Z.ltb_spec 0 step); [lia|].
  assert ((0 - stop - step - 1) / - step <= 0) as Hq.
  { apply Z.lt_succ_r. apply Z.div_lt_upper_bound; lia. }
  by replace (Z.to_nat ((0 - stop - step - 1) / - step)) with 0%nat by lia.
Qed.

End ChunkParameters.

(** X15. Edge cases of the parameters of [summarize_long_text]: a chunk size
    of zero raises [ValueError] before any call; a negative chunk size, a
    maximum of zero chunks or an empty text give the empty summary without
    any call to the summarizer. *)
Theorem degenerate_chunking_makes_no_call `{S : Services}
  (text : str) (chunk_size max_chunks : Z) (w : World) :
  Enhanced.summarize_long_text text 0 max_chunks w
  = mkOutcome (Raise ValueError) w []
  /\ (chunk_size < 0 ->
      Enhanced.summarize_long_text text chunk_size max_chunks w
      = mkOutcome (Ok []) w [])
  /\ (chunk_size <> 0 ->
      Enhanced.summarize_long_text text chunk_size 0 w
      = mkOutcome (Ok []) w [])
  /\ (chunk_size <> 0 ->
      Enhanced.summarize_long_text [] chunk_size max_chunks w
      = mkOutcome (Ok []) w []).
Proof.
  split; [reflexivity|].
  assert (Hneg : forall t k, chunk_size < 0 ->
            Enhanced.summarize_long_text t chunk_size k w
            = mkOutcome (Ok []) w []).
  { intros t k Hn. unfold Enhanced.summarize_long_text, Enhanced.chunks_of.
    destruct (Z.eqb_spec chunk_size 0); [lia|].
    rewrite range_backwards by (unfold len; lia).
    rewrite mret_bind. unfold upto. cbn [fmap list_fmap length].
    destruct (0 <=? k); rewrite take_nil; reflexivity. }
  split; [apply Hneg|]. split.
  - intros Hn. destruct (Z.lt_trichotomy chunk_size 0) as [Hlt|[?|Hgt]];
      [by apply Hneg|done|].
    rewrite (summarize_long_text_blocks _ _ _ _ Hgt).
    change (upto (blocks (Z.to_nat chunk_size) text) 0) with (@nil str).
    reflexivity.
  - intros Hn. destruct (Z.lt_trichotomy chunk_size 0) as [Hlt|[?|Hgt]];
      [by apply Hneg|done|].
    rewrite (summarize_long_text_blocks _ _ _ _ Hgt).
    assert (Hb : blocks (Z.to_nat chunk_size) [] = []).
    { unfold blocks, block_count. cbn [length].
      replace ((Z.of_nat 0 + Z.of_nat (Z.to_nat chunk_size) - 1)
               / Z.of_nat (Z.to_nat chunk_size)) with 0; [done|].
      symmetry. apply Z.div_small. lia. }
    rewrite Hb. unfold upto. cbn [length].
    destruct (0 <=? max_chunks); rewrite take_nil; reflexivity.
Qed.

(** X16. For any positive chunk size [n] and any maximum [k >= 0],
    [summarize_long_text] summarizes the first [k] blocks of [n] characters
    and nothing else: these are [min k (ceil (len text / n))] chunks, which
    put end to end are the first [k * n] characters of the text.  The calls
    are made in chunk order, and when a summary is returned there is one
    reply per such chunk and the summary is their summaries in chunk order
    with exactly one space between two neighbours ([spaced]). *)
Theorem chunk_budget `{S : Services} (text : str) (n k : Z) (w : World) :
  0 < n -> 0 <= k ->
  let used := take (Z.to_nat k) (blocks (Z.to_nat n) text) in
  concat used = take (Z.to_nat k * Z.to_nat n) text
  /\ length used = Nat.min (Z.to_nat k) (block_count (Z.to_nat n) text)
  /\ exists replies,
       log (Enhanced.summarize_long_text text n k w)
       = summarize_events used replies
       /\ (length replies <= length used)%nat
       /\ forall out,
            res (Enhanced.summarize_long_text text n k w) = Ok out ->
            length replies = length used
            /\ exists summaries,
                 Forall2 (fun r s => reply_summary r = Some s)
                   replies summaries
                 /\ out = spaced summaries.
Proof.
  intros Hn Hk used. subst used.
  split; [apply blocks_take; lia|].
  split; [by rewrite length_take, blocks_length|].
  rewrite (summarize_long_text_blocks _ _ _ _ Hn).
  assert (Hupto : upto (blocks (Z.to_nat n) text) k
                  = take (Z.to_nat k) (blocks (Z.to_nat n) text)).
  { unfold upto. by destruct (Z.leb_spec 0 k); [|lia]. }
  rewrite Hupto.
  destruct (summarize_chunks_run
              (take (Z.to_nat k) (blocks (Z.to_nat n) text)) [] w)
    as (replies & Hlog & Hlen & Hres).
  exists replies.
  destruct (res (Enhanced.summarize_chunks
                   (take (Z.to_nat k) (blocks (Z.to_nat n) text)) [] w))
    as [ss|e] eqn:E.
  - rewrite (bind_ok _ _ _ _ E). cbn [res log mret M_ret ret].
    rewrite app_nil_r. split; [done|]. split; [done|].
    intros out [= <-]. destruct Hres as (ss' & -> & Hss & Hl).
    split; [done|]. exists ss'. by rewrite join_space_spaced.
  - rewrite (bind_raise _ _ _ _ E). cbn [res log]. by repeat split.
Qed.

Lemma chunk_budget_witness :
  res (Enhanced.summarize_long_text (S := Sim.services) (lit "abcdefghij")
         4 2 Sim.boot) = Ok (lit "abcd efgh")
  /\ exists replies,
       log (Enhanced.summarize_long_text (S := Sim.services)
              (lit "abcdefghij") 4 2 Sim.boot)
       = summarize_events [lit "abcd"; lit "efgh"] replies
       /\ exists summaries,
            Forall2 (fun r s => reply_summary r = Some s) replies summaries
            /\ lit "abcd efgh" = spaced summaries.
Proof.
  assert (Hres : res (Enhanced.summarize_long_text (S := Sim.services)
                        (lit "abcdefghij") 4 2 Sim.boot)
                 = Ok (lit "abcd efgh")) by (by vm_compute).
  split; [exact Hres|].
  destruct (chunk_budget (S := Sim.services) (lit "abcdefghij") 4 2 Sim.boot
              ltac:(done) ltac:(done)) as (_ & _ & replies & Hlog & _ & Hout).
  exists replies. split; [exact Hlog|].
  destruct (Hout _ Hres) as (_ & summaries & Hss & Hsp).
  by exists summaries.
Defined.

Lemma degenerate_chunking_makes_no_call_witness :
  Enhanced.summarize_long_text (S := Sim.services) Sim.fox (-3) 5 Sim.boot
  = mkOutcome (Ok []) Sim.boot []
  /\ Enhanced.summarize_long_text (S := Sim.services) Sim.fox 1000 0 Sim.boot
     = mkOutcome (Ok []) Sim.boot [].
Proof.
  destruct (degenerate_chunking_makes_no_call (S := Sim.services) Sim.fox
              (-3) 5 Sim.boot) as (_ & H & _).
  destruct (degenerate_chunking_makes_no_call (S := Sim.services) Sim.fox
              1000 0 Sim.boot) as (_ & _ & H' & _).
  split; [by apply H | by apply H'].
Defined.

(** ** The two summarization policies side by side *)

Section Policies.
Context `{S : Services}.

Lemma single_block (text : str) :
  (0 < length text <= 1000)%nat -> blocks 1000 text = [text].
Proof.
  intros Hlen. unfold blocks, block_count.
  replace ((Z.of_nat (length text) + Z.of_nat 1000 - 1) / Z.of_nat 1000)
    with 1.
  - change (Z.to_nat 1) with 1%nat. unfold block.
    change (seq 0 1) with [0%nat]. rewrite list_fmap_singleton.
    rewrite Nat.mul_0_l, drop_0, take_ge; [done|lia].
  - apply (Z.div_unique _ _ 1 (Z.of_nat (length text) - 1)); lia.
Qed.

(** On a text of one chunk the chunked summary is the model's summary of the
    whole text. *)
Lemma summarize_single_chunk (text : str) w :
  (0 < length text <= 1000)%nat ->
  let r := (summarizer_call text 130 30 false w).1 in
  let w1 := (summarizer_call text 130 30 false w).2 in
  Enhanced.summarize_long_text text 1000 5 w
  = match reply_summary r with
    | Some s => mkOutcome (Ok s) w1 [EvSummarize text 130 30 false r]
    | None =>
        mkOutcome (Raise (reply_exn r)) w1 [EvSummarize text 130 30 false r]
    end.
Proof.
  intros Hlen r w1.
  rewrite summarize_long_text_blocks by lia.
  change (Z.to_nat 1000) with 1000%nat. rewrite (single_block _ Hlen).
  change (upto [text] 5) with [text].
  destruct (reply_summary r) as [s|] eqn:E.
  - assert (Hc : Enhanced.summarize_chunks [text] [] w
                 = mkOutcome (Ok [s]) w1 [EvSummarize text 130 30 false r]).
    { cbn [Enhanced.summarize_chunks]. rewrite summarize_once_run. cbv zeta.
      fold r w1. by rewrite E. }
    assert (Hr : res (Enhanced.summarize_chunks [text] [] w) = Ok [s])
      by (by rewrite Hc).
    rewrite (bind_ok _ _ _ _ Hr), Hc. reflexivity.
  - assert (Hc : Enhanced.summarize_chunks [text] [] w
                 = mkOutcome (Raise (reply_exn r)) w1
                     [EvSummarize text 130 30 false r]).
    { cbn [Enhanced.summarize_chunks]. rewrite summarize_once_run. cbv zeta.
      fold r w1. by rewrite E. }
    assert (Hr : res (Enhanced.summarize_chunks [text] [] w)
                 = Raise (reply_exn r)) by (by rewrite Hc).
    rewrite (bind_raise _ _ _ _ Hr), Hc. reflexivity.
Qed.

End Policies.

(** X17. On a text of 1 to 1000 characters the chunked [generate_metadata]
    and the truncating one are the same computation: same calls, same final
    world, same record or same exception. *)
Theorem policies_agree_on_short_texts `{S : Services}
  (gm : str -> str -> M MetadataRecord) (text doc_type : str) (w : World) :
  truncating gm ->
  (0 < length text <= 1000)%nat ->
  Enhanced.generate_metadata text doc_type w = gm text doc_type w.
Proof.
  intros Hgm Hlen.
  rewrite (truncating_shared _ Hgm), generate_metadata_run,
    enhanced_generate_metadata_run. cbv zeta.
  assert (Hshort : short_text text = text)
    by (unfold short_text; case_decide; [lia|done]).
  rewrite Hshort, (summarize_single_chunk _ _ Hlen). cbv zeta.
  destruct (reply_summary (summarizer_call text 130 30 false w).1);
    reflexivity.
Qed.

Lemma policies_agree_on_short_texts_witness :
  Enhanced.generate_metadata (S := Sim.services) Sim.fox TXT Sim.boot
  = Notebook.generate_metadata (S := Sim.services) Sim.fox TXT Sim.boot.
Proof.
  apply (policies_agree_on_short_texts (S := Sim.services)
           Notebook.generate_metadata Sim.fox TXT Sim.boot
           truncating_notebook).
  vm_compute. lia.
Defined.

(** ** What the assemblers call *)

Section ModelCalls.
Context `{S : Services}.

Lemma block_piece n text k :
  exists before after, text = before ++ block n text k ++ after.
Proof.
  exists (take (k * n) text), (drop n (drop (k * n) text)).
  unfold block. by rewrite !take_drop.
Qed.

Lemma blocks_pieces n text :
  (n <= 1024)%nat ->
  Forall (fun c => (length c <= 1024)%nat
                   /\ exists before after, text = before ++ c ++ after)
    (blocks n text).
Proof.
  intros Hn. unfold blocks. apply Forall_fmap, Forall_forall.
  intros k _. split; [|apply block_piece].
  unfold block. rewrite length_take. lia.
Qed.

Lemma summarize_events_standard text chunks replies :
  Forall (fun c => (length c <= 1024)%nat
                   /\ exists before after, text = before ++ c ++ after)
    chunks ->
  Forall (standard_model_call text) (summarize_events chunks replies).
Proof.
  intros H. revert replies.
  induction H as [|c chunks [Hlen Hpiece] _ IH]; intros replies;
    [constructor|].
  destruct replies as [|r replies]; [constructor|].
  unfold summarize_events. cbn [zip_with]. constructor; [|apply IH].
  by repeat split.
Qed.

Lemma short_text_piece text :
  (length (short_text text) <= 1024)%nat
  /\ exists before after, text = before ++ short_text text ++ after.
Proof.
  unfold short_text. case_decide.
  - split; [rewrite length_take; lia|].
    exists [], (drop 1024 text). by rewrite take_drop.
  - split; [lia|]. exists [], []. by rewrite app_nil_r.
Qed.

(** The transcript of the chunked summarization with the default
    parameters. *)
Lemma summarize_long_text_log text w :
  exists replies,
    log (Enhanced.summarize_long_text text 1000 5 w)
    = summarize_events (take 5 (blocks 1000 text)) replies
    /\ (length replies <= 5)%nat
    /\ forall e,
         res (Enhanced.summarize_long_text text 1000 5 w) = Raise e ->
         exists r,
           last replies = Some r /\ reply_summary r = None /\ e = reply_exn r.
Proof.
  rewrite summarize_long_text_blocks by lia.
  change (Z.to_nat 1000) with 1000%nat.
  change (upto (blocks 1000 text) 5) with (take 5 (blocks 1000 text)).
  destruct (summarize_chunks_run (take 5 (blocks 1000 text)) [] w)
    as (replies & Hlog & Hlen & Hres).
  exists replies. rewrite length_take in Hlen.
  destruct (res (Enhanced.summarize_chunks (take 5 (blocks 1000 text)) [] w))
    as [ss|e] eqn:E.
  - rewrite (bind_ok _ _ _ _ E). cbn [res log mret M_ret ret].
    rewrite app_nil_r. split; [done|]. split; [lia|done].
  - rewrite (bind_raise _ _ _ _ E). cbn [res log].
    split; [done|]. split; [lia|]. by intros e' [= <-].
Qed.

End ModelCalls.

(** X18. In the chunked [generate_metadata] one failed chunk fails the whole
    record: when the summarization raises, the record is not built from the
    summaries obtained so far, the keyword extractor is not called, and the
    exception is the one of the last reply received, which carried no
    summary. *)
Theorem failed_chunk_fails_record `{S : Services}
  (text doc_type : str) (w : World) (e : exn) :
  res (Enhanced.summarize_long_text text 1000 5 w) = Raise e ->
  res (Enhanced.generate_metadata text doc_type w) = Raise e
  /\ exists replies r,
       log (Enhanced.generate_metadata text doc_type w)
       = summarize_events (take 5 (blocks 1000 text)) replies
       /\ last replies = Some r
       /\ reply_summary r = None
       /\ e = reply_exn r.
Proof.
  intros H. rewrite enhanced_generate_metadata_run. cbv zeta. rewrite H.
  split; [done|]. cbn [log].
  destruct (summarize_long_text_log text w) as (replies & Hlog & _ & Hr).
  destruct (Hr e H) as (r & Hlast & Hnone & He).
  by exists replies, r.
Qed.

Lemma failed_chunk_fails_record_witness :
  res (Enhanced.generate_metadata (S := Lab.services)
         (replicate 1000 97%N ++ lit "End") TXT Lab.boot) = Raise IndexError.
Proof.
  apply (failed_chunk_fails_record (S := Lab.services)
           (replicate 1000 97%N ++ lit "End") TXT Lab.boot IndexError).
  by vm_compute.
Defined.

(** X19. Every call that [generate_metadata] makes is a model call with the
    fixed arguments of the scripts: the summarizer is called with
    [max_length=130], [min_length=30], [do_sample=False] on a contiguous
    piece of the text of at most 1024 characters, the keyword extractor with
    n-grams of one or two words, the English stop words and [top_n=8] on the
    whole text.  No file is read and nothing is printed.  There are at most
    six calls, and at most two in the truncating variants. *)
Theorem assemblers_make_standard_model_calls `{S : Services}
  (gm : str -> str -> M MetadataRecord) (text doc_type : str) (w : World) :
  (assembler gm ->
   Forall (standard_model_call text) (log (gm text doc_type w))
   /\ (length (log (gm text doc_type w)) <= 6)%nat)
  /\ (truncating gm -> (1 <= length (log (gm text doc_type w)) <= 2)%nat).
Proof.
  assert (Htr : forall g, truncating g ->
            Forall (standard_model_call text) (log (g text doc_type w))
            /\ (1 <= length (log (g text doc_type w)) <= 2)%nat).
  { intros g Hgm.
    rewrite (truncating_shared _ Hgm), generate_metadata_run. cbv zeta.
    destruct (short_text_piece text) as [Hlen Hpiece].
    destruct (reply_summary _); cbn [log length]; (split; [|lia]).
    - apply Forall_cons. split; [by repeat split|].
      apply Forall_cons. split; [by repeat split|]. by apply Forall_nil.
    - apply Forall_cons. split; [by repeat split|]. by apply Forall_nil. }
  split; [|apply Htr].
  intros [gm' Hgm|].
  - destruct (Htr _ Hgm). split; [done|lia].
  - rewrite enhanced_generate_metadata_run. cbv zeta.
    destruct (summarize_long_text_log text w) as (replies & Hlog & Hlen & _).
    assert (Hstd : Forall (standard_model_call text)
                     (log (Enhanced.summarize_long_text text 1000 5 w))).
    { rewrite Hlog. apply summarize_events_standard.
      apply Forall_take, blocks_pieces. lia. }
    assert (Hn : (length (log (Enhanced.summarize_long_text text 1000 5 w))
                  <= 5)%nat).
    { rewrite Hlog. unfold summarize_events. rewrite length_zip_with. lia. }
    destruct (res (Enhanced.summarize_long_text text 1000 5 w));
      cbn [log]; [|split; [done|lia]].
    split.
    + apply Forall_app. split; [done|].
      apply Forall_cons. split; [by repeat split|]. by apply Forall_nil.
    + rewrite length_app. cbn [length]. lia.
Qed.

Lemma assemblers_make_standard_model_calls_witness :
  (length (log (Enhanced.generate_metadata (S := Sim.services)
                  (replicate 2500 97%N) TXT Sim.boot)) <= 6)%nat
  /\ (1 <= length (log (Notebook.generate_metadata (S := Sim.services)
                          (replicate 2500 97%N) TXT Sim.boot)) <= 2)%nat.
Proof.
  split.
  - apply (assemblers_make_standard_model_calls (S := Sim.services)
             Enhanced.generate_metadata (replicate 2500 97%N) TXT Sim.boot),
      assembler_chunked.
  - apply (assemblers_make_standard_model_calls (S := Sim.services)
             Notebook.generate_metadata (replicate 2500 97%N) TXT Sim.boot),
      truncating_notebook.
Defined.

(** X20. Whenever any [generate_metadata] returns a record, the keyword
    extractor was called exactly once, as the last call and on the full text,
    and the keywords of the record are the phrases of its reply, all of them
    and in the order of the reply. *)
Theorem keywords_come_last_and_unchanged `{S : Services}
  (gm : str -> str -> M MetadataRecord) (text doc_type : str) (w : World)
  (m : MetadataRecord) :
  assembler gm ->
  res (gm text doc_type w) = Ok m ->
  exists summaries_log kws,
    log (gm text doc_type w)
    = summaries_log ++ [EvKeywords text (1, 2) (lit "english") 8 (Ok kws)]
    /\ existsb (fun ev => match ev with
                          | EvKeywords _ _ _ _ _ => true
                          | _ => false
                          end) summaries_log = false
    /\ keywords m = fst <$> kws.
Proof.
  intros [gm' Hgm|].
  - rewrite (truncating_shared _ Hgm), generate_metadata_run. cbv zeta.
    destruct (reply_summary _) as [s|]; [|done]. cbn [res log].
    destruct (kw_extract_keywords _ _ _ _ _).1 as [kws|]; [|done].
    intros [= <-]. by eexists [_], kws.
  - rewrite enhanced_generate_metadata_run. cbv zeta.
    destruct (summarize_long_text_log text w) as (replies & Hlog & _).
    destruct (res (Enhanced.summarize_long_text text 1000 5 w)) as [s|];
      [|done]. cbn [res log].
    destruct (kw_extract_keywords _ _ _ _ _).1 as [kws|]; [|done].
    intros [= <-]. eexists _, kws. split; [done|]. split; [|done].
    rewrite Hlog. clear Hlog. unfold summarize_events.
    generalize (take 5 (blocks 1000 text)). intros cs. revert replies.
    induction cs as [|c cs IH]; intros [|r replies]; cbn [zip_with existsb];
      try done. apply IH.
Qed.

Lemma keywords_come_last_and_unchanged_witness :
  exists m,
    res (Enhanced.generate_metadata (S := Sim.services) Sim.fox TXT Sim.boot)
    = Ok m
    /\ exists kws : list (str * nat), keywords m = fst <$> kws.
Proof.
  destruct (res (Enhanced.generate_metadata (S := Sim.services) Sim.fox TXT
                   Sim.boot)) as [m|e] eqn:E; [|by vm_compute in E].
  exists m. split; [done|].
  destruct (keywords_come_last_and_unchanged (S := Sim.services)
              Enhanced.generate_metadata Sim.fox TXT Sim.boot m
              assembler_chunked E) as (l & kws & _ & _ & H).
  by exists kws.
Defined.
